(** * react-apollo-network-status: the network status reducer

    A shallow embedding of [src/index.ts] (the module
    [useApolloNetworkStatus]): the per-kind
    counters, the per-kind latest-error trackers, the snapshot [reducer],
    [initialState] and the opt-out gate, followed by the properties the
    specification states about them.

    Two features of JavaScript decide several of these properties and are
    modelled explicitly:
    - object identity ([===] on objects compares references): every object
      carries the address it was allocated at, and the reducers run in a
      small allocation monad that hands out fresh addresses;
    - property lookup ([state[operationName]]) walks the prototype chain:
      a plain object inherits the properties of [Object.prototype]. *)

From Stdlib Require Import ZArith String List Bool Lia.
From stdpp Require Import base gmap strings list fin_maps.

Local Open Scope string_scope.
Local Open Scope Z_scope.

(** ** Numbers and values *)

(** A JavaScript [number] as these reducers use it: an integer-valued double
    or [NaN].  Integers are exact in a double up to 2^53; the counters only
    ever move by one per event, so the development covers every run of
    fewer than 2^53 events. *)
Inductive JsNum : Type :=
| Int (n : Z)
| NaN.

(** The values that can be read out of, or stored in, a
    [Record<string, number>] at run time.  The declared type promises
    numbers, but a lookup can reach a property inherited from
    [Object.prototype], and [value + 1] on such a value is a string. *)
Inductive JsVal : Type :=
| VNum (x : JsNum)
| VStr (s : string)      (* a string that is not a numeric literal *)
| VFun (name : string)   (* the built-in function called [name] *)
| VProto.                (* the object [Object.prototype] itself *)

#[global] Instance JsNum_eq_dec : EqDecision JsNum.
Proof. solve_decision. Defined.

#[global] Instance JsVal_eq_dec : EqDecision JsVal.
Proof. solve_decision. Defined.

(** [x + 1] on numbers. *)
Definition num_succ (x : JsNum) : JsNum :=
  match x with
  | Int n => Int (n + 1)
  | NaN => NaN
  end.

(** [Math.max(x - 1, 0)] on numbers: [Math.max] returns [NaN] as soon as one
    argument is [NaN]. *)
Definition num_pred_floor (x : JsNum) : JsNum :=
  match x with
  | Int n => Int (Z.max (n - 1) 0)
  | NaN => NaN
  end.

(** [x !== y] on numbers: [NaN] differs from everything, itself included. *)
Definition num_strict_ne (x y : JsNum) : bool :=
  match x, y with
  | Int a, Int b => negb (a =? b)
  | _, _ => true
  end.

(** The text a built-in function converts to (as V8 prints it). *)
Definition fun_source (name : string) : string :=
  ("function " ++ name ++ "() { [native code] }")%string.

(** [value + 1]: addition on a number; on anything else [ToPrimitive] yields
    a string and [+] concatenates. *)
Definition js_plus_one (value : JsVal) : JsVal :=
  match value with
  | VNum x => VNum (num_succ x)
  | VStr s => VStr (s ++ "1")%string
  | VFun f => VStr (fun_source f ++ "1")%string
  | VProto => VStr "[object Object]1"
  end.

(** [Math.max(value - 1, 0)]: [-] converts its operand with [ToNumber],
    which is [NaN] for a function, for an object and for the non-numeric
    strings [js_plus_one] builds. *)
Definition js_minus_one_floor (value : JsVal) : JsVal :=
  match value with
  | VNum x => VNum (num_pred_floor x)
  | VStr _ | VFun _ | VProto => VNum NaN
  end.

(** The properties every plain object inherits from [Object.prototype]
    (ECMAScript, with Annex B).  [constructor] is the function [Object]. *)
Definition ObjectPrototype (key : string) : option JsVal :=
  if String.eqb key "constructor" then Some (VFun "Object")
  else if String.eqb key "__proto__" then Some VProto
  else if existsb (String.eqb key)
            ["hasOwnProperty"; "isPrototypeOf"; "propertyIsEnumerable";
             "toLocaleString"; "toString"; "valueOf";
             "__defineGetter__"; "__defineSetter__";
             "__lookupGetter__"; "__lookupSetter__"]
       then Some (VFun key)
  else None.

(** [o[key]] on a plain object: the own property if there is one, else the
    inherited one, else [undefined] (here [None]). *)
Definition get (o : gmap string JsVal) (key : string) : option JsVal :=
  match o !! key with
  | Some v => Some v
  | None => ObjectPrototype key
  end.

(** ** Objects and allocation *)

(** An object is the address it was allocated at together with its
    contents.  The reducers never write to an object after handing it out,
    so contents can travel with the address. *)
Record Obj (A : Type) : Type := mkObj { addr : nat; val : A }.
Arguments mkObj {A} addr val.
Arguments addr {A} o.
Arguments val {A} o.

(** [x === y] on objects. *)
Definition same_object {A B : Type} (x : Obj A) (y : Obj B) : bool :=
  Nat.eqb (addr x) (addr y).

(** [x !== y] on values that are an object or [undefined]. *)
Definition opt_strict_ne {A : Type} (x y : option (Obj A)) : bool :=
  match x, y with
  | None, None => false
  | Some a, Some b => negb (same_object a b)
  | _, _ => true
  end.

(** Computations that may allocate: they take the next free address and
    return the next free address afterwards. *)
Definition Alloc (A : Type) : Type := nat -> A * nat.

Definition ret {A : Type} (a : A) : Alloc A := fun next => (a, next).

Definition bind {A B : Type} (c : Alloc A) (k : A -> Alloc B) : Alloc B :=
  fun next => let (a, next') := c next in k a next'.

(** An object literal: a new object at the next free address. *)
Definition new {A : Type} (contents : A) : Alloc (Obj A) :=
  fun next => (mkObj next contents, S next).

Notation "'let*' x ':=' c1 'in' c2" := (bind c1 (fun x => c2))
  (at level 10, x name, c1 at level 100, c2 at level 200).

(** ** Operations and events *)

Inductive OperationTypeNode : Type := Query | Mutation | Subscription.

#[global] Instance OperationTypeNode_eq_dec : EqDecision OperationTypeNode.
Proof. solve_decision. Defined.

Module DefinitionNode.
(** A definition of a GraphQL document: [kind] is ["OperationDefinition"]
    for an operation (then [operation] is present), another string for
    fragments and type-system definitions. *)
Record t : Type := mk { kind : string; operation : option OperationTypeNode }.
End DefinitionNode.

Module DocumentNode.
Record t : Type := mk { definitions : list DefinitionNode.t }.
End DocumentNode.

Module Operation.
(** Apollo's [Operation], with the parts the reducers read:
    [useApolloNetworkStatus] stands for
    [operation.getContext().useApolloNetworkStatus] ([None] when the context
    has no such entry). *)
Record t : Type := mk {
  query : DocumentNode.t;
  operationName : string;
  useApolloNetworkStatus : option bool
}.
End Operation.

(** Errors and results are carried around, never inspected, except for the
    presence of [errors] in a result. *)
Definition JsError : Type := string.
Definition GraphQLError : Type := string.

Module ExecutionResult.
Record t : Type := mk { data : option string; errors : option (list GraphQLError) }.
End ExecutionResult.

(** Modelled from the spec: [./ActionTypes] is not part of the sources; the
    specification names exactly these four event kinds. *)
Inductive ActionTypes : Type := REQUEST | ERROR | SUCCESS | CANCEL.

Module Payload.
(** Modelled from the spec: [./NetworkStatusAction] is not part of the
    sources; an event carries the operation and, depending on its kind, a
    [networkError] (ERROR) or a [result] (SUCCESS). *)
Record t : Type := mk {
  operation : Operation.t;
  networkError : option JsError;
  result : option ExecutionResult.t
}.
End Payload.

Module NetworkStatusAction.
(** Modelled from the spec: [./NetworkStatusAction] is not part of the
    sources; an event is its kind and its payload. *)
Record t : Type := mk { type : ActionTypes; payload : Payload.t }.
End NetworkStatusAction.

Module OperationError.
Record t : Type := mk {
  networkError : option JsError;
  operation : Operation.t;
  response : option ExecutionResult.t;
  graphQLErrors : option (list GraphQLError)
}.
End OperationError.

Module NetworkStatus.
Record t : Type := mk {
  pendingQueries : Obj (gmap string JsVal);
  pendingMutations : Obj (gmap string JsVal);
  numPendingQueries : JsNum;
  numPendingMutations : JsNum;
  queryError : option (Obj OperationError.t);
  mutationError : option (Obj OperationError.t)
}.
End NetworkStatus.

(** ** The reducers *)

(** [operation.query.definitions.some(...)]: some definition of the
    document is an operation definition of the given type. *)
Definition isOperationType (operation : Operation.t) (type : OperationTypeNode) : bool :=
  existsb
    (fun definition =>
       String.eqb (DefinitionNode.kind definition) "OperationDefinition"
       && bool_decide (DefinitionNode.operation definition = Some type))
    (DocumentNode.definitions (Operation.query operation)).

(** [pendingOperations(type)]: the per-name counter of one kind.  Both
    object literals create a new object.  The four event kinds exhaust
    [ActionTypes], so the [return state] after the [switch] is never
    reached. *)
Definition pendingOperations (type : OperationTypeNode)
    (state : Obj (gmap string JsVal)) (action : NetworkStatusAction.t)
  : Alloc (Obj (gmap string JsVal)) :=
  let operation := Payload.operation (NetworkStatusAction.payload action) in
  if negb (isOperationType operation type) then ret state
  else
    let operationName := Operation.operationName operation in
    (* const {[operationName]: value = 0} = state *)
    let value := default (VNum (Int 0)) (get (val state) operationName) in
    match NetworkStatusAction.type action with
    | REQUEST =>
        new (<[operationName := js_plus_one value]> (val state))
    | ERROR | SUCCESS | CANCEL =>
        new (<[operationName := js_minus_one_floor value]> (val state))
    end.

(** [numPendingOperations(type)]: the total of one kind.  The default
    [state = 0] never applies: [numPendingQueries] and [numPendingMutations]
    are required fields of a snapshot. *)
Definition numPendingOperations (type : OperationTypeNode)
    (state : JsNum) (action : NetworkStatusAction.t) : JsNum :=
  let operation := Payload.operation (NetworkStatusAction.payload action) in
  if negb (isOperationType operation type) then state
  else
    match NetworkStatusAction.type action with
    | REQUEST => num_succ state
    | ERROR | SUCCESS | CANCEL => num_pred_floor state
    end.

(** [latestOperationError(type)]: the latest error of one kind, an
    [OperationError] object or [undefined]. *)
Definition latestOperationError (type : OperationTypeNode)
    (state : option (Obj OperationError.t)) (action : NetworkStatusAction.t)
  : Alloc (option (Obj OperationError.t)) :=
  let payload := NetworkStatusAction.payload action in
  if negb (isOperationType (Payload.operation payload) type) then ret state
  else
    match NetworkStatusAction.type action with
    | REQUEST => ret None
    | ERROR =>
        let* o := new (OperationError.mk (Payload.networkError payload)
                    (Payload.operation payload) None None) in
        ret (Some o)
    | SUCCESS =>
        (* if (result && result.errors): an array is truthy even when empty *)
        match Payload.result payload with
        | Some result =>
            match ExecutionResult.errors result with
            | Some errors =>
                let* o := new (OperationError.mk None (Payload.operation payload)
                            (Some result) (Some errors)) in
                ret (Some o)
            | None => ret state
            end
        | None => ret state
        end
    | CANCEL => ret state
    end.

Definition pendingQueries := pendingOperations Query.
Definition pendingMutations := pendingOperations Mutation.

Definition numPendingQueries := numPendingOperations Query.
Definition numPendingMutations := numPendingOperations Mutation.

Definition queryError := latestOperationError Query.
Definition mutationError := latestOperationError Mutation.

(** The keys of a snapshot, for [Object.keys(state)] and [state[key]]. *)
Inductive Key : Type :=
| KpendingQueries | KpendingMutations | KnumPendingQueries
| KnumPendingMutations | KqueryError | KmutationError.

(** [Object.keys(state)]: a snapshot has all six keys, as [initialState]
    does and as every copy [{...state}] of such a snapshot does. *)
Definition Object_keys (state : Obj NetworkStatus.t) : list Key :=
  [KnumPendingQueries; KnumPendingMutations; KpendingQueries;
   KpendingMutations; KqueryError; KmutationError].

(** [updatedState[key] !== state[key]] *)
Definition field_strict_ne (key : Key) (updatedState state : NetworkStatus.t) : bool :=
  match key with
  | KpendingQueries =>
      negb (same_object (NetworkStatus.pendingQueries updatedState)
                        (NetworkStatus.pendingQueries state))
  | KpendingMutations =>
      negb (same_object (NetworkStatus.pendingMutations updatedState)
                        (NetworkStatus.pendingMutations state))
  | KnumPendingQueries =>
      num_strict_ne (NetworkStatus.numPendingQueries updatedState)
                    (NetworkStatus.numPendingQueries state)
  | KnumPendingMutations =>
      num_strict_ne (NetworkStatus.numPendingMutations updatedState)
                    (NetworkStatus.numPendingMutations state)
  | KqueryError =>
      opt_strict_ne (NetworkStatus.queryError updatedState)
                    (NetworkStatus.queryError state)
  | KmutationError =>
      opt_strict_ne (NetworkStatus.mutationError updatedState)
                    (NetworkStatus.mutationError state)
  end.

Definition reducer (state : Obj NetworkStatus.t) (action : NetworkStatusAction.t)
  : Alloc (Obj NetworkStatus.t) :=
  if isOperationType (Payload.operation (NetworkStatusAction.payload action)) Subscription
  then ret state
  else
    (* const updatedState = {...state}; its fields are then assigned one by
       one, each sub-reducer reading the field it is about to replace *)
    let* updatedState := new (val state) in
    let* pq := pendingQueries (NetworkStatus.pendingQueries (val updatedState)) action in
    let* pm := pendingMutations (NetworkStatus.pendingMutations (val updatedState)) action in
    let nq := numPendingQueries (NetworkStatus.numPendingQueries (val updatedState)) action in
    let nm := numPendingMutations (NetworkStatus.numPendingMutations (val updatedState)) action in
    let* qe := queryError (NetworkStatus.queryError (val updatedState)) action in
    let* me := mutationError (NetworkStatus.mutationError (val updatedState)) action in
    let updatedState :=
      mkObj (addr updatedState) (NetworkStatus.mk pq pm nq nm qe me) in
    let haveValuesChanged :=
      existsb (fun key => field_strict_ne key (val updatedState) (val state))
              (Object_keys state) in
    ret (if haveValuesChanged then updatedState else state).

(** [initialState], with the three objects its literal creates. *)
Definition initialState : Obj NetworkStatus.t :=
  mkObj 0%nat
    (NetworkStatus.mk (mkObj 1%nat ∅) (mkObj 2%nat ∅) (Int 0) (Int 0) None None).

(** The first address free once [initialState] exists. *)
Definition initialNext : nat := 3%nat.

Definition defaultShouldHandleOperation (operation : Operation.t) : bool :=
  (* operation.getContext().useApolloNetworkStatus !== false *)
  negb (bool_decide (Operation.useApolloNetworkStatus operation = Some false)).

(** The reducer [useApolloNetworkStatus] hands to
    [useApolloNetworkStatusReducer]; [shouldHandleOperation] is
    [options.shouldHandleOperation], [None] when the option is not given. *)
Definition configuredReducer (shouldHandleOperation : option (Operation.t -> bool))
    (state : Obj NetworkStatus.t) (action : NetworkStatusAction.t)
  : Alloc (Obj NetworkStatus.t) :=
  let shouldHandleOperation :=
    default defaultShouldHandleOperation shouldHandleOperation in
  if negb (shouldHandleOperation (Payload.operation (NetworkStatusAction.payload action)))
  then ret state
  else reducer state action.

(** Events delivered one at a time, in order, each to the snapshot the
    previous one produced. *)
Fixpoint dispatchAll (state : Obj NetworkStatus.t) (actions : list NetworkStatusAction.t)
  : Alloc (Obj NetworkStatus.t) :=
  match actions with
  | [] => ret state
  | action :: rest => let* state' := reducer state action in dispatchAll state' rest
  end.

(** ** Vocabulary for the statements *)

(** Every address a snapshot mentions was handed out before [next]. *)
Definition allocated (state : Obj NetworkStatus.t) (next : nat) : bool :=
  let below {A : Type} (o : Obj A) := Nat.ltb (addr o) next in
  below state
  && below (NetworkStatus.pendingQueries (val state))
  && below (NetworkStatus.pendingMutations (val state))
  && from_option below true (NetworkStatus.queryError (val state))
  && from_option below true (NetworkStatus.mutationError (val state)).

(** A document holding one operation definition of the given type. *)
Definition document (type : OperationTypeNode) : DocumentNode.t :=
  DocumentNode.mk [DefinitionNode.mk "OperationDefinition" (Some type)].

(** An event without error and without result. *)
Definition event (kind : ActionTypes) (type : OperationTypeNode) (name : string)
  : NetworkStatusAction.t :=
  NetworkStatusAction.mk kind
    (Payload.mk (Operation.mk (document type) name None) None None).

(** A SUCCESS event carrying a result. *)
Definition success (type : OperationTypeNode) (name : string)
    (result : ExecutionResult.t) : NetworkStatusAction.t :=
  NetworkStatusAction.mk SUCCESS
    (Payload.mk (Operation.mk (document type) name None) None (Some result)).

(** An ERROR event carrying a network error. *)
Definition failure (type : OperationTypeNode) (name : string)
    (networkError : JsError) : NetworkStatusAction.t :=
  NetworkStatusAction.mk ERROR
    (Payload.mk (Operation.mk (document type) name None) (Some networkError) None).

Abbreviation operation_of action :=
  (Payload.operation (NetworkStatusAction.payload action)).

(** What a matching event stores under its operation name. *)
Definition stored (kind : ActionTypes) (value : JsVal) : JsVal :=
  match kind with
  | REQUEST => js_plus_one value
  | ERROR | SUCCESS | CANCEL => js_minus_one_floor value
  end.

(** An event is tracked when the reducer lets it reach a counter: it has
    no subscription definition and has a query or a mutation definition. *)
Definition tracked (action : NetworkStatusAction.t) : bool :=
  negb (isOperationType (operation_of action) Subscription)
  && (isOperationType (operation_of action) Query
      || isOperationType (operation_of action) Mutation).

(** The contents of two snapshots agree field by field: same per-name
    counts, same totals, same error objects. *)
Definition value_equal (a b : Obj NetworkStatus.t) : Prop :=
  val (NetworkStatus.pendingQueries (val a)) = val (NetworkStatus.pendingQueries (val b))
  /\ val (NetworkStatus.pendingMutations (val a)) = val (NetworkStatus.pendingMutations (val b))
  /\ NetworkStatus.numPendingQueries (val a) = NetworkStatus.numPendingQueries (val b)
  /\ NetworkStatus.numPendingMutations (val a) = NetworkStatus.numPendingMutations (val b)
  /\ NetworkStatus.queryError (val a) = NetworkStatus.queryError (val b)
  /\ NetworkStatus.mutationError (val a) = NetworkStatus.mutationError (val b).

(** The event reaches the counters of the given kind. *)
Definition counts_as (type : OperationTypeNode) (action : NetworkStatusAction.t) : bool :=
  negb (isOperationType (operation_of action) Subscription)
  && isOperationType (operation_of action) type.

(** The map and the total of one kind after an event, as the two counter
    reducers leave them. *)
Definition map_after (type : OperationTypeNode) (action : NetworkStatusAction.t)
    (before : gmap string JsVal) : gmap string JsVal :=
  let name := Operation.operationName (operation_of action) in
  if counts_as type action
  then <[name := stored (NetworkStatusAction.type action)
                   (default (VNum (Int 0)) (get before name))]> before
  else before.

Definition total_after (type : OperationTypeNode) (action : NetworkStatusAction.t)
    (before : JsNum) : JsNum :=
  if counts_as type action
  then match NetworkStatusAction.type action with
       | REQUEST => num_succ before
       | ERROR | SUCCESS | CANCEL => num_pred_floor before
       end
  else before.

(** The operation name collides with a property of [Object.prototype]. *)
Definition inherited (name : string) : bool :=
  match ObjectPrototype name with
  | Some _ => true
  | None => false
  end.

Definition ordinary_names (actions : list NetworkStatusAction.t) : bool :=
  forallb (fun action => negb (inherited (Operation.operationName (operation_of action))))
          actions.

(** The value is a count: a number, an integer, not negative. *)
Definition is_count (v : JsVal) : Prop :=
  exists n : Z, v = VNum (Int n) /\ 0 <= n.

Definition count_of (v : JsVal) : Z :=
  match v with
  | VNum (Int n) => n
  | _ => 0
  end.

(** The sum of the values of a map of counts. *)
Definition sum_values (m : gmap string JsVal) : Z :=
  map_fold (fun _ v acc => count_of v + acc) 0 m.

(** The count a map gives a name, 0 when the name has no entry. *)
Definition count_at (m : gmap string JsVal) (name : string) : Z :=
  from_option count_of 0 (m !! name).

(** A map and a total of one kind hold counts, and the total does not
    exceed the sum of the map. *)
Definition counted (m : gmap string JsVal) (t : JsNum) : Prop :=
  map_Forall (fun _ v => is_count v) m
  /\ exists n : Z, t = Int n /\ 0 <= n <= sum_values m.

Definition counted_snapshot (s : NetworkStatus.t) : Prop :=
  counted (val (NetworkStatus.pendingQueries s)) (NetworkStatus.numPendingQueries s)
  /\ counted (val (NetworkStatus.pendingMutations s)) (NetworkStatus.numPendingMutations s).

(** The change an event makes to the number of requests of the given kind
    and name that wait for an answer. *)
Definition delta (type : OperationTypeNode) (name : string)
    (action : NetworkStatusAction.t) : Z :=
  if counts_as type action
     && String.eqb (Operation.operationName (operation_of action)) name
  then match NetworkStatusAction.type action with
       | REQUEST => 1
       | ERROR | SUCCESS | CANCEL => -1
       end
  else 0.

(** Requests of the given kind and name among the events seen, less the
    terminal events of that kind and name. *)
Definition outstanding (type : OperationTypeNode) (name : string)
    (seen : list NetworkStatusAction.t) : Z :=
  foldr (fun action acc => delta type name action + acc) 0 seen.

(** A terminal event answers a request that is still waiting, in each kind
    it counts for. *)
Definition answers (seen : list NetworkStatusAction.t)
    (action : NetworkStatusAction.t) : bool :=
  match NetworkStatusAction.type action with
  | REQUEST => true
  | ERROR | SUCCESS | CANCEL =>
      forallb
        (fun type =>
           negb (counts_as type action)
           || (0 <? outstanding type (Operation.operationName (operation_of action)) seen))
        [Query; Mutation]
  end.

(** [seen] holds the events already delivered, latest first. *)
Fixpoint in_order_after (seen actions : list NetworkStatusAction.t) : bool :=
  match actions with
  | [] => true
  | action :: rest => answers seen action && in_order_after (action :: seen) rest
  end.

(** Every terminal event of the sequence answers an earlier request of the
    same kind and name that no other terminal event has answered. *)
Definition answered_in_order (actions : list NetworkStatusAction.t) : bool :=
  in_order_after [] actions.

(** A map and a total of one kind agree with the events seen. *)
Definition agrees (type : OperationTypeNode) (seen : list NetworkStatusAction.t)
    (m : gmap string JsVal) (t : JsNum) : Prop :=
  map_Forall (fun _ v => is_count v) m
  /\ t = Int (sum_values m)
  /\ forall name, count_at m name = outstanding type name seen.

Definition agrees_snapshot (seen : list NetworkStatusAction.t) (s : NetworkStatus.t) : Prop :=
  agrees Query seen (val (NetworkStatus.pendingQueries s)) (NetworkStatus.numPendingQueries s)
  /\ agrees Mutation seen (val (NetworkStatus.pendingMutations s))
       (NetworkStatus.numPendingMutations s).

(** ** Vocabulary for the further properties *)

(** The change an event makes to the number of requests of the given kind
    that wait for an answer, whatever their name. *)
Definition delta_total (type : OperationTypeNode) (action : NetworkStatusAction.t) : Z :=
  if counts_as type action
  then match NetworkStatusAction.type action with
       | REQUEST => 1
       | ERROR | SUCCESS | CANCEL => -1
       end
  else 0.

(** Requests of the given kind among the events, less the terminal events
    of that kind. *)
Definition requests_less_answers (type : OperationTypeNode)
    (actions : list NetworkStatusAction.t) : Z :=
  foldr (fun action acc => delta_total type action + acc) 0 actions.

(** The result of a SUCCESS carries an [errors] entry. *)
Definition carries_errors (action : NetworkStatusAction.t) : bool :=
  match Payload.result (NetworkStatusAction.payload action) with
  | Some result =>
      match ExecutionResult.errors result with
      | Some _ => true
      | None => false
      end
  | None => false
  end.

(** The event decides the error field of the given kind: a REQUEST, an
    ERROR, or a SUCCESS whose result carries errors, of that kind. *)
Definition decisive (type : OperationTypeNode) (action : NetworkStatusAction.t) : bool :=
  counts_as type action
  && match NetworkStatusAction.type action with
     | REQUEST | ERROR => true
     | SUCCESS => carries_errors action
     | CANCEL => false
     end.

(** The contents of the error field a decisive event leaves. *)
Definition outcome (action : NetworkStatusAction.t) : option OperationError.t :=
  let payload := NetworkStatusAction.payload action in
  match NetworkStatusAction.type action with
  | REQUEST | CANCEL => None
  | ERROR =>
      Some (OperationError.mk (Payload.networkError payload)
              (Payload.operation payload) None None)
  | SUCCESS =>
      match Payload.result payload with
      | Some result =>
          match ExecutionResult.errors result with
          | Some errors =>
              Some (OperationError.mk None (Payload.operation payload)
                      (Some result) (Some errors))
          | None => None
          end
      | None => None
      end
  end.

(** The outcome of the latest decisive event of the sequence, [before] when
    there is none. *)
Definition latest_error (type : OperationTypeNode)
    (actions : list NetworkStatusAction.t) (before : option OperationError.t)
  : option OperationError.t :=
  match find (decisive type) (rev actions) with
  | Some action => outcome action
  | None => before
  end.

(** Events delivered one at a time through the reducer that
    [useApolloNetworkStatus] configures. *)
Fixpoint dispatchAllGated (shouldHandleOperation : option (Operation.t -> bool))
    (state : Obj NetworkStatus.t) (actions : list NetworkStatusAction.t)
  : Alloc (Obj NetworkStatus.t) :=
  match actions with
  | [] => ret state
  | action :: rest =>
      let* state' := configuredReducer shouldHandleOperation state action in
      dispatchAllGated shouldHandleOperation state' rest
  end.

(** The events whose operation the configured predicate accepts. *)
Definition accepted (shouldHandleOperation : option (Operation.t -> bool))
    (actions : list NetworkStatusAction.t) : list NetworkStatusAction.t :=
  List.filter
    (fun action =>
       default defaultShouldHandleOperation shouldHandleOperation (operation_of action))
    actions.

(** The value is something other than an integer: a string, [NaN], or an
    inherited object. *)
Definition poisoned (v : JsVal) : bool :=
  match v with
  | VNum (Int _) => false
  | _ => true
  end.

(** The total is an integer that is not negative. *)
Definition is_total (t : JsNum) : Prop :=
  exists n : Z, t = Int n /\ 0 <= n.

(** The event is a SUCCESS, an ERROR or a CANCEL. *)
Definition terminal (action : NetworkStatusAction.t) : bool :=
  match NetworkStatusAction.type action with
  | REQUEST => false
  | ERROR | SUCCESS | CANCEL => true
  end.

(** The map holds the count [c] for the name: an own entry that is the
    integer [c], or no entry and nothing inherited under that name, which
    the counter reads as 0. *)
Definition holds_count (m : gmap string JsVal) (name : string) (c : Z) : Prop :=
  m !! name = Some (VNum (Int c))
  \/ (m !! name = None /\ inherited name = false /\ c = 0).

(** * Properties *)

(** ** The sub-reducers, case by case *)

Lemma isOperationType_spec (operation : Operation.t) (type : OperationTypeNode) :
  isOperationType operation type = true <->
  exists definition,
    In definition (DocumentNode.definitions (Operation.query operation))
    /\ DefinitionNode.kind definition = "OperationDefinition"
    /\ DefinitionNode.operation definition = Some type.
Proof.
  unfold isOperationType. rewrite existsb_exists. split.
  - intros (d & Hin & Hd). apply andb_true_iff in Hd as [Hk Ho].
    exists d. split; [exact Hin|]. split.
    + now apply String.eqb_eq.
    + now apply bool_decide_eq_true in Ho.
  - intros (d & Hin & Hk & Ho). exists d. split; [exact Hin|].
    apply andb_true_iff. split.
    + now apply String.eqb_eq.
    + now apply bool_decide_eq_true.
Qed.

Lemma latestOperationError_other type state action next :
  isOperationType (operation_of action) type = false ->
  latestOperationError type state action next = (state, next).
Proof. intros H. unfold latestOperationError. now rewrite H. Qed.

Lemma latestOperationError_request type state action next :
  isOperationType (operation_of action) type = true ->
  NetworkStatusAction.type action = REQUEST ->
  latestOperationError type state action next = (None, next).
Proof. intros H Ht. unfold latestOperationError. now rewrite H, Ht. Qed.

Lemma latestOperationError_error type state action next :
  isOperationType (operation_of action) type = true ->
  NetworkStatusAction.type action = ERROR ->
  latestOperationError type state action next =
  (Some (mkObj next
           (OperationError.mk
              (Payload.networkError (NetworkStatusAction.payload action))
              (operation_of action) None None)),
   S next).
Proof. intros H Ht. unfold latestOperationError. now rewrite H, Ht. Qed.

Lemma pendingOperations_other type state action next :
  isOperationType (operation_of action) type = false ->
  pendingOperations type state action next = (state, next).
Proof. intros H. unfold pendingOperations. now rewrite H. Qed.

Lemma pendingOperations_match type state action next :
  isOperationType (operation_of action) type = true ->
  pendingOperations type state action next =
  (mkObj next
     (<[Operation.operationName (operation_of action) :=
          stored (NetworkStatusAction.type action)
            (default (VNum (Int 0))
               (get (val state) (Operation.operationName (operation_of action))))]>
        (val state)),
   S next).
Proof.
  intros H. unfold pendingOperations. rewrite H.
  now destruct (NetworkStatusAction.type action).
Qed.

Lemma numPendingOperations_other type state action :
  isOperationType (operation_of action) type = false ->
  numPendingOperations type state action = state.
Proof. intros H. unfold numPendingOperations. now rewrite H. Qed.

Lemma num_strict_ne_succ x : num_strict_ne (num_succ x) x = true.
Proof. destruct x; simpl; [|reflexivity]. apply negb_true_iff, Z.eqb_neq. lia. Qed.

Lemma num_strict_ne_refl n : num_strict_ne (Int n) (Int n) = false.
Proof. simpl. now rewrite Z.eqb_refl. Qed.

(** ** The snapshot reducer *)

(** The subscription guard: nothing is copied, nothing is allocated. *)
Lemma reducer_subscription state action next :
  isOperationType (operation_of action) Subscription = true ->
  reducer state action next = (state, next).
Proof. intros H. unfold reducer. now rewrite H. Qed.

(** C5: the reducer applied to any state and any event whose operation is a
    subscription returns the very object it was given (same address, same
    contents) and allocates nothing: no count and no error field changes. *)
Theorem reducer_subscription_identity state action next :
  isOperationType (operation_of action) Subscription = true ->
  reducer state action next = (state, next)
  /\ same_object (fst (reducer state action next)) state = true.
Proof.
  intros H. rewrite (reducer_subscription _ _ _ H). split; [reflexivity|].
  unfold same_object. simpl. apply Nat.eqb_refl.
Qed.

Lemma reducer_subscription_identity_witness :
  let state' := fst (dispatchAll initialState [event REQUEST Query "GetUser"] initialNext) in
  let action := failure Subscription "OnMessage" "socket closed" in
  isOperationType (operation_of action) Subscription = true
  /\ reducer state' action 5%nat = (state', 5%nat)
  /\ same_object (fst (reducer state' action 5%nat)) state' = true.
Proof.
  intros state' action. split; [reflexivity|].
  apply (reducer_subscription_identity state' action 5%nat). reflexivity.
Defined.

(** C8: from [initialState], two REQUESTs for the query ["GetUser"] followed
    by one SUCCESS leave [pendingQueries.GetUser] at 1. *)
Theorem two_requests_one_success :
  val (NetworkStatus.pendingQueries
         (val (fst (dispatchAll initialState
                      [event REQUEST Query "GetUser";
                       event REQUEST Query "GetUser";
                       event SUCCESS Query "GetUser"]
                      initialNext))))
    !! "GetUser" = Some (VNum (Int 1)).
Proof. vm_compute. reflexivity. Qed.

(** The reducer past its subscription guard, with the allocations spelled
    out: the copy takes [next], the sub-reducers allocate after it. *)
Lemma reducer_unfold state action next :
  isOperationType (operation_of action) Subscription = false ->
  reducer state action next =
  let s := val state in
  let '(pq, n1) := pendingQueries (NetworkStatus.pendingQueries s) action (S next) in
  let '(pm, n2) := pendingMutations (NetworkStatus.pendingMutations s) action n1 in
  let nq := numPendingQueries (NetworkStatus.numPendingQueries s) action in
  let nm := numPendingMutations (NetworkStatus.numPendingMutations s) action in
  let '(qe, n3) := queryError (NetworkStatus.queryError s) action n2 in
  let '(me, n4) := mutationError (NetworkStatus.mutationError s) action n3 in
  let updatedState := mkObj next (NetworkStatus.mk pq pm nq nm qe me) in
  (if existsb (fun key => field_strict_ne key (val updatedState) s) (Object_keys state)
   then updatedState else state, n4).
Proof.
  intros H. unfold reducer. rewrite H. unfold bind, new, ret. simpl.
  destruct (pendingQueries _ _ _) as [pq n1].
  destruct (pendingMutations _ _ _) as [pm n2].
  destruct (queryError _ _ _) as [qe n3].
  destruct (mutationError _ _ _) as [me n4].
  reflexivity.
Qed.

(** Names the result and the next free address of every sub-reducer call
    left in the goal. *)
Ltac name_results :=
  repeat match goal with
         | |- context [let '(_, _) := ?call in _] =>
             lazymatch call with
             | pair _ _ => fail
             | _ => destruct call as [? ?]
             end
         end.

(** C6: whatever the state, and so in particular when the kind-wide error
    is set, a REQUEST event of kind query clears [queryError], and one of
    kind mutation clears [mutationError]; the operation name plays no part. *)
Theorem request_clears_error state action next :
  NetworkStatusAction.type action = REQUEST ->
  isOperationType (operation_of action) Subscription = false ->
  (isOperationType (operation_of action) Query = true ->
   NetworkStatus.queryError (val (fst (reducer state action next))) = None)
  /\ (isOperationType (operation_of action) Mutation = true ->
      NetworkStatus.mutationError (val (fst (reducer state action next))) = None).
Proof.
  intros Ht Hs. rewrite (reducer_unfold _ _ _ Hs). cbv zeta.
  unfold pendingQueries, pendingMutations, queryError, mutationError,
    numPendingQueries, numPendingMutations.
  split; intros Hk.
  - rewrite (pendingOperations_match _ _ _ _ Hk).
    destruct (pendingOperations Mutation _ _ _) as [pm n2].
    rewrite (latestOperationError_request _ _ _ _ Hk Ht).
    destruct (latestOperationError Mutation _ _ _) as [me n4].
    unfold Object_keys, existsb, field_strict_ne at 1. simpl.
    unfold numPendingOperations at 1. rewrite Hk, Ht. simpl.
    now rewrite num_strict_ne_succ.
  - destruct (pendingOperations Query _ _ _) as [pq n1].
    rewrite (pendingOperations_match _ _ _ _ Hk).
    destruct (latestOperationError Query _ _ _) as [qe n3].
    rewrite (latestOperationError_request _ _ _ _ Hk Ht).
    unfold Object_keys, existsb. simpl.
    unfold numPendingOperations at 2. rewrite Hk, Ht. simpl.
    rewrite num_strict_ne_succ. now rewrite orb_true_r.
Qed.

Lemma request_clears_error_witness :
  let state := fst (dispatchAll initialState [failure Query "Search" "timeout"] initialNext) in
  let action := event REQUEST Query "GetUser" in
  is_Some (NetworkStatus.queryError (val state))
  /\ NetworkStatus.queryError (val (fst (reducer state action 6%nat))) = None.
Proof.
  intros state action. split.
  - vm_compute. eexists. reflexivity.
  - apply (proj1 (request_clears_error state action 6%nat eq_refl eq_refl)).
    reflexivity.
Defined.

Lemma from_option_below {A : Type} (x : option (Obj A)) (n : nat) :
  from_option (fun o => Nat.ltb (addr o) n) true x = true <->
  forall o, x = Some o -> (addr o < n)%nat.
Proof.
  destruct x as [o|]; simpl.
  - rewrite Nat.ltb_lt. split; [now intros H ? [= <-] | auto].
  - split; [discriminate | reflexivity].
Qed.

Lemma allocated_iff state next :
  allocated state next = true <->
  (addr state < next)%nat
  /\ (addr (NetworkStatus.pendingQueries (val state)) < next)%nat
  /\ (addr (NetworkStatus.pendingMutations (val state)) < next)%nat
  /\ (forall o, NetworkStatus.queryError (val state) = Some o -> (addr o < next)%nat)
  /\ (forall o, NetworkStatus.mutationError (val state) = Some o -> (addr o < next)%nat).
Proof.
  unfold allocated. rewrite !andb_true_iff, !Nat.ltb_lt, !from_option_below. tauto.
Qed.

Lemma same_object_fresh {A B : Type} (a b : nat) (x : A) (o : Obj B) :
  (addr o < a)%nat -> (a <= b)%nat -> same_object (mkObj b x) o = false.
Proof. intros H1 H2. unfold same_object. simpl. apply Nat.eqb_neq. lia. Qed.

Lemma same_object_refl {A : Type} (o : Obj A) : same_object o o = true.
Proof. apply Nat.eqb_refl. Qed.

Lemma opt_strict_ne_refl {A : Type} (x : option (Obj A)) : opt_strict_ne x x = false.
Proof. destruct x; simpl; [|reflexivity]. now rewrite same_object_refl. Qed.

(** An event of a tracked kind always yields the copy: the per-name map of
    that kind is a new object, so [haveValuesChanged] holds. *)
Lemma reducer_tracked state action next :
  isOperationType (operation_of action) Subscription = false ->
  isOperationType (operation_of action) Query = true
  \/ isOperationType (operation_of action) Mutation = true ->
  allocated state next = true ->
  reducer state action next =
  let s := val state in
  let '(pq, n1) := pendingQueries (NetworkStatus.pendingQueries s) action (S next) in
  let '(pm, n2) := pendingMutations (NetworkStatus.pendingMutations s) action n1 in
  let nq := numPendingQueries (NetworkStatus.numPendingQueries s) action in
  let nm := numPendingMutations (NetworkStatus.numPendingMutations s) action in
  let '(qe, n3) := queryError (NetworkStatus.queryError s) action n2 in
  let '(me, n4) := mutationError (NetworkStatus.mutationError s) action n3 in
  (mkObj next (NetworkStatus.mk pq pm nq nm qe me), n4).
Proof.
  intros Hs Hk Ha. rewrite (reducer_unfold _ _ _ Hs). cbv zeta.
  apply allocated_iff in Ha as (_ & Hpq & Hpm & _).
  unfold pendingQueries, pendingMutations.
  destruct (isOperationType (operation_of action) Query) eqn:Hq.
  - rewrite (pendingOperations_match _ _ _ _ Hq).
    destruct (pendingOperations Mutation _ _ _) as [pm n2].
    destruct (queryError _ _ _) as [qe n3].
    destruct (mutationError _ _ _) as [me n4].
    unfold Object_keys, existsb, field_strict_ne. cbn [val NetworkStatus.pendingQueries].
    rewrite (same_object_fresh (S next) (S next)) by lia.
    now rewrite !orb_true_r.
  - destruct Hk as [Hk|Hm]; [discriminate|].
    rewrite (pendingOperations_other _ _ _ _ Hq).
    rewrite (pendingOperations_match _ _ _ _ Hm).
    destruct (queryError _ _ _) as [qe n3].
    destruct (mutationError _ _ _) as [me n4].
    unfold Object_keys, existsb, field_strict_ne. cbn [val NetworkStatus.pendingMutations].
    rewrite (same_object_fresh (S next) (S next)) by lia.
    now rewrite !orb_true_r.
Qed.

(** An event of no tracked kind leaves every field as it was. *)
Lemma reducer_untracked state action next :
  isOperationType (operation_of action) Subscription = false ->
  isOperationType (operation_of action) Query = false ->
  isOperationType (operation_of action) Mutation = false ->
  reducer state action next =
  (if num_strict_ne (NetworkStatus.numPendingQueries (val state))
                    (NetworkStatus.numPendingQueries (val state))
      || num_strict_ne (NetworkStatus.numPendingMutations (val state))
                       (NetworkStatus.numPendingMutations (val state))
   then mkObj next (val state) else state, S next).
Proof.
  intros Hs Hq Hm. rewrite (reducer_unfold _ _ _ Hs). cbv zeta.
  unfold pendingQueries, pendingMutations, queryError, mutationError,
    numPendingQueries, numPendingMutations.
  rewrite !(pendingOperations_other _ _ _ _ Hq), !(pendingOperations_other _ _ _ _ Hm).
  rewrite !(latestOperationError_other _ _ _ _ Hq), !(latestOperationError_other _ _ _ _ Hm).
  rewrite !(numPendingOperations_other _ _ _ Hq), !(numPendingOperations_other _ _ _ Hm).
  unfold Object_keys, existsb, field_strict_ne.
  rewrite !same_object_refl, !opt_strict_ne_refl. cbn [negb].
  rewrite !orb_false_r. now destruct state as [a [pq pm nq nm qe me]].
Qed.

(** C2: the claim is not met by the code.  A SUCCESS without errors,
    arriving when the query error is absent and the count of its name is
    already 0, changes no value: the total reducer returns the number it
    was given and the error tracker returns the state it was given.  The
    per-name reducer alone returns a new object with the same entries, so
    [haveValuesChanged] holds and the reducer returns a value-equal copy
    of the snapshot, not the object it was given, against the comment
    above the check (the identity of the state should be kept if
    possible). *)
Theorem clean_success_returns_copy :
  let state := fst (dispatchAll initialState [event SUCCESS Query "A"] initialNext) in
  let action := success Query "A" (ExecutionResult.mk (Some "{}") None) in
  let state' := fst (reducer state action 5%nat) in
  let map := NetworkStatus.pendingQueries (val state) in
  let map' := fst (pendingQueries map action 6%nat) in
  allocated state 5%nat = true
  /\ NetworkStatus.queryError (val state) = None
  /\ val map !! "A" = Some (VNum (Int 0))
  /\ numPendingQueries (NetworkStatus.numPendingQueries (val state)) action
     = NetworkStatus.numPendingQueries (val state)
  /\ fst (queryError (NetworkStatus.queryError (val state)) action 7%nat)
     = NetworkStatus.queryError (val state)
  /\ val map' = val map
  /\ same_object map' map = false
  /\ value_equal state' state
  /\ same_object state' state = false.
Proof. vm_compute. repeat split; reflexivity. Qed.

(** What the code does about identity: on a snapshot whose addresses are
    allocated and whose totals are numbers other than NaN, the reducer
    returns the object it was given exactly when the event is not tracked,
    that is when its operation has a subscription definition or neither a
    query nor a mutation definition; then the result is that very object.
    For a tracked event the per-name map of its kind is rebuilt, and a new
    object comes back even when no value changed. *)
Theorem reducer_identity_iff_untracked state action next nq nm :
  allocated state next = true ->
  NetworkStatus.numPendingQueries (val state) = Int nq ->
  NetworkStatus.numPendingMutations (val state) = Int nm ->
  same_object (fst (reducer state action next)) state = negb (tracked action)
  /\ (tracked action = false -> fst (reducer state action next) = state).
Proof.
  intros Ha Hnq Hnm. unfold tracked.
  destruct (isOperationType (operation_of action) Subscription) eqn:Hs.
  { rewrite (reducer_subscription _ _ _ Hs).
    simpl. split; [apply same_object_refl | reflexivity]. }
  destruct (_ || _) eqn:Hk; simpl.
  - apply orb_true_iff in Hk.
    rewrite (reducer_tracked _ _ _ Hs Hk Ha). cbv zeta. name_results.
    split; [|discriminate].
    apply allocated_iff in Ha as (Ha & _).
    apply (same_object_fresh (S (addr state)) next); simpl; lia.
  - apply orb_false_iff in Hk as [Hq Hm].
    rewrite (reducer_untracked _ _ _ Hs Hq Hm), Hnq, Hnm, !num_strict_ne_refl.
    simpl. split; [apply same_object_refl | reflexivity].
Qed.

Lemma reducer_identity_iff_untracked_witness :
  let state := fst (dispatchAll initialState [event REQUEST Query "GetUser"] initialNext) in
  let fragments :=
    NetworkStatusAction.mk SUCCESS
      (Payload.mk
         (Operation.mk (DocumentNode.mk [DefinitionNode.mk "FragmentDefinition" None])
                       "UserFields" None)
         None None) in
  let request := event REQUEST Mutation "AddItem" in
  (tracked fragments = false /\ fst (reducer state fragments 5%nat) = state)
  /\ (tracked request = true
      /\ same_object (fst (reducer state request 5%nat)) state = false).
Proof.
  intros state fragments request. split; (split; [reflexivity|]).
  - apply (reducer_identity_iff_untracked state fragments 5%nat 1 0);
      reflexivity.
  - apply (proj1 (reducer_identity_iff_untracked state request 5%nat 1 0
                    eq_refl eq_refl eq_refl)).
Defined.

(** ** The latest-error trackers *)

(** C7: an ERROR event of the tracker's kind replaces the error state,
    whatever it held, by a new record with exactly [networkError] and
    [operation] ([response] and [graphQLErrors] absent); through the
    reducer, the error field of that kind in the resulting snapshot is such
    a record. *)
Theorem error_overwrites type previous state action next :
  NetworkStatusAction.type action = ERROR ->
  isOperationType (operation_of action) type = true ->
  let record :=
    OperationError.mk (Payload.networkError (NetworkStatusAction.payload action))
                      (operation_of action) None None in
  let s' := val (fst (reducer state action next)) in
  latestOperationError type previous action next = (Some (mkObj next record), S next)
  /\ (isOperationType (operation_of action) Subscription = false ->
      allocated state next = true ->
      (type = Query -> val <$> NetworkStatus.queryError s' = Some record)
      /\ (type = Mutation -> val <$> NetworkStatus.mutationError s' = Some record)).
Proof.
  intros Ht Hk record s'. split.
  - apply latestOperationError_error; assumption.
  - intros Hs Ha. subst s'.
    split; intros ->;
      (rewrite reducer_tracked by (assumption || (left; assumption)
                                   || (right; assumption)));
      cbv zeta; unfold queryError, mutationError.
    + destruct (pendingQueries _ _ _) as [pq n1].
      destruct (pendingMutations _ _ _) as [pm n2].
      rewrite (latestOperationError_error _ _ _ _ Hk Ht).
      destruct (latestOperationError Mutation _ _ _) as [me n4].
      reflexivity.
    + destruct (pendingQueries _ _ _) as [pq n1].
      destruct (pendingMutations _ _ _) as [pm n2].
      destruct (latestOperationError Query _ _ _) as [qe n3].
      rewrite (latestOperationError_error _ _ _ _ Hk Ht).
      reflexivity.
Qed.

Lemma error_overwrites_witness :
  let partial := success Query "Search" (ExecutionResult.mk None (Some ["denied"])) in
  let state := fst (dispatchAll initialState [partial] initialNext) in
  let action := failure Query "GetUser" "timeout" in
  let record :=
    OperationError.mk (Some "timeout")
      (Operation.mk (document Query) "GetUser" None) None None in
  (OperationError.graphQLErrors <$> (val <$> NetworkStatus.queryError (val state))
   = Some (Some ["denied"]))
  /\ latestOperationError Query (NetworkStatus.queryError (val state)) action 6%nat
     = (Some (mkObj 6%nat record), 7%nat)
  /\ val <$> NetworkStatus.queryError (val (fst (reducer state action 6%nat)))
     = Some record.
Proof.
  intros partial state action record.
  pose proof (error_overwrites Query (NetworkStatus.queryError (val state))
                state action 6%nat eq_refl eq_refl) as [Htracker Hsnapshot].
  split; [reflexivity|]. split.
  - exact Htracker.
  - apply (proj1 (Hsnapshot eq_refl eq_refl)). reflexivity.
Defined.

(** C3, as stated, fails: the tracker tests [result.errors] for presence
    only, and an empty array is truthy; a SUCCESS whose result carries an
    empty errors sequence replaces the error state instead of leaving it. *)
Lemma empty_errors_replace_state :
  let action := success Query "GetUser" (ExecutionResult.mk (Some "{}") (Some [])) in
  isOperationType (operation_of action) Query = true
  /\ fst (latestOperationError Query None action 3%nat) <> None.
Proof. split; [reflexivity|]. vm_compute. discriminate. Qed.

(** C3, amended: on a SUCCESS event of the tracker's kind, if the result
    carries an errors sequence, empty or not, the error state is replaced by
    a new record [{graphQLErrors, response, operation}]; if there is no
    result or the result has no errors entry, the tracker returns the prior
    state itself, so a success without errors never clears a recorded
    error. *)
Theorem success_records_errors type state action next :
  NetworkStatusAction.type action = SUCCESS ->
  isOperationType (operation_of action) type = true ->
  (forall result errors,
      Payload.result (NetworkStatusAction.payload action) = Some result ->
      ExecutionResult.errors result = Some errors ->
      latestOperationError type state action next =
      (Some (mkObj next
               (OperationError.mk None (operation_of action)
                  (Some result) (Some errors))),
       S next))
  /\ ((forall result,
         Payload.result (NetworkStatusAction.payload action) = Some result ->
         ExecutionResult.errors result = None) ->
      latestOperationError type state action next = (state, next)).
Proof.
  intros Ht Hk. unfold latestOperationError. rewrite Hk, Ht. simpl. split.
  - intros result errors -> ->. reflexivity.
  - intros Hclean. destruct (Payload.result _) as [result|]; [|reflexivity].
    now rewrite (Hclean result eq_refl).
Qed.

Lemma success_records_errors_witness :
  let recorded :=
    Some (mkObj 4%nat
            (OperationError.mk (Some "timeout")
               (Operation.mk (document Query) "Search" None) None None)) in
  let clean := success Query "GetUser" (ExecutionResult.mk (Some "{}") None) in
  let partial := success Query "GetUser" (ExecutionResult.mk None (Some ["denied"])) in
  latestOperationError Query recorded clean 9%nat = (recorded, 9%nat)
  /\ latestOperationError Query recorded partial 9%nat
     = (Some (mkObj 9%nat
                (OperationError.mk None (Operation.mk (document Query) "GetUser" None)
                   (Some (ExecutionResult.mk None (Some ["denied"])))
                   (Some ["denied"]))),
        10%nat).
Proof.
  intros recorded clean partial. split.
  - apply (proj2 (success_records_errors Query recorded clean 9%nat eq_refl eq_refl)).
    intros result [= <-]. reflexivity.
  - apply (proj1 (success_records_errors Query recorded partial 9%nat eq_refl eq_refl)
             (ExecutionResult.mk None (Some ["denied"])) ["denied"]);
      reflexivity.
Defined.

(** ** The opt-out gate *)

(** C9: when the configured predicate rejects the event's operation (or,
    with no predicate configured, when the operation's context sets
    [useApolloNetworkStatus] to [false]), the gated reducer returns the
    object it was given and allocates nothing; the result is the same
    whatever the event's kind, operation type and payload, so nothing of the
    snapshot reducer takes part. *)
Theorem gate_rejects shouldHandleOperation state action next :
  default defaultShouldHandleOperation shouldHandleOperation (operation_of action) = false ->
  configuredReducer shouldHandleOperation state action next = (state, next)
  /\ same_object (fst (configuredReducer shouldHandleOperation state action next)) state
     = true.
Proof.
  intros H. unfold configuredReducer. rewrite H. simpl.
  split; [reflexivity | apply same_object_refl].
Qed.

Lemma gate_rejects_witness :
  let optedOut :=
    NetworkStatusAction.mk REQUEST
      (Payload.mk (Operation.mk (document Query) "Poll" (Some false)) None None) in
  let onlyMutations (operation : Operation.t) := isOperationType operation Mutation in
  configuredReducer None initialState optedOut initialNext = (initialState, initialNext)
  /\ configuredReducer (Some onlyMutations) initialState
       (event REQUEST Query "GetUser") initialNext
     = (initialState, initialNext)
  /\ fst (reducer initialState optedOut initialNext) <> initialState.
Proof.
  intros optedOut onlyMutations. split; [|split].
  - apply (gate_rejects None initialState optedOut initialNext). reflexivity.
  - apply (gate_rejects (Some onlyMutations) initialState
             (event REQUEST Query "GetUser") initialNext).
    reflexivity.
  - vm_compute. discriminate.
Defined.

Lemma defaultShouldHandleOperation_spec operation :
  defaultShouldHandleOperation operation = false
  <-> Operation.useApolloNetworkStatus operation = Some false.
Proof.
  unfold defaultShouldHandleOperation. rewrite negb_false_iff.
  apply bool_decide_eq_true.
Qed.

(** ** Reachable snapshots *)

Lemma pendingOperations_alloc type state action next :
  (addr state < next)%nat ->
  (addr (fst (pendingOperations type state action next))
   < snd (pendingOperations type state action next))%nat
  /\ (next <= snd (pendingOperations type state action next))%nat.
Proof.
  intros H. destruct (isOperationType (operation_of action) type) eqn:Hk.
  - rewrite (pendingOperations_match _ _ _ _ Hk). simpl. lia.
  - rewrite (pendingOperations_other _ _ _ _ Hk). simpl. lia.
Qed.

Lemma latestOperationError_alloc type state action next :
  (forall o, state = Some o -> (addr o < next)%nat) ->
  (forall o, fst (latestOperationError type state action next) = Some o ->
             (addr o < snd (latestOperationError type state action next))%nat)
  /\ (next <= snd (latestOperationError type state action next))%nat.
Proof.
  intros H. unfold latestOperationError, bind, new, ret.
  destruct (isOperationType _ type); simpl; [|split; [exact H | lia]].
  destruct (NetworkStatusAction.type action); simpl.
  - split; [discriminate | lia].
  - split; [intros o [= <-]; simpl; lia | lia].
  - destruct (Payload.result _) as [result|]; simpl; [|split; [exact H | lia]].
    destruct (ExecutionResult.errors result); simpl;
      [split; [intros o [= <-]; simpl; lia | lia] | split; [exact H | lia]].
  - split; [exact H | lia].
Qed.

(** The reducer only hands out addresses from [next] on, so a snapshot made
    of allocated objects stays one. *)
Lemma reducer_allocated state action next :
  allocated state next = true ->
  allocated (fst (reducer state action next)) (snd (reducer state action next)) = true.
Proof.
  intros Ha.
  destruct (isOperationType (operation_of action) Subscription) eqn:Hs.
  { now rewrite (reducer_subscription _ _ _ Hs). }
  destruct (tracked action) eqn:Htr.
  - unfold tracked in Htr. rewrite Hs in Htr. simpl in Htr.
    apply orb_true_iff in Htr.
    rewrite (reducer_tracked _ _ _ Hs Htr Ha). cbv zeta.
    apply allocated_iff in Ha as (H0 & H1 & H2 & H3 & H4).
    pose proof (pendingOperations_alloc Query _ action (S next)
                  (Nat.lt_lt_succ_r _ _ H1)) as [Hpq Hn1].
    unfold pendingQueries.
    destruct (pendingOperations Query _ _ _) as [pq n1]. simpl in Hpq, Hn1.
    assert (H2' : (addr (NetworkStatus.pendingMutations (val state)) < n1)%nat) by lia.
    pose proof (pendingOperations_alloc Mutation _ action n1 H2') as [Hpm Hn2].
    unfold pendingMutations.
    destruct (pendingOperations Mutation _ _ _) as [pm n2]. simpl in Hpm, Hn2.
    assert (H3' : forall o, NetworkStatus.queryError (val state) = Some o ->
                            (addr o < n2)%nat).
    { intros o Ho. specialize (H3 o Ho). lia. }
    pose proof (latestOperationError_alloc Query _ action n2 H3') as [Hqe Hn3].
    unfold queryError.
    destruct (latestOperationError Query _ _ _) as [qe n3]. simpl in Hqe, Hn3.
    assert (H4' : forall o, NetworkStatus.mutationError (val state) = Some o ->
                            (addr o < n3)%nat).
    { intros o Ho. specialize (H4 o Ho). lia. }
    pose proof (latestOperationError_alloc Mutation _ action n3 H4') as [Hme Hn4].
    unfold mutationError.
    destruct (latestOperationError Mutation _ _ _) as [me n4]. simpl in Hme, Hn4.
    apply allocated_iff. simpl. repeat split; try lia.
    + intros o Ho. specialize (Hqe o Ho). lia.
    + exact Hme.
  - unfold tracked in Htr. rewrite Hs in Htr. simpl in Htr.
    apply orb_false_iff in Htr as [Hq Hm].
    rewrite (reducer_untracked _ _ _ Hs Hq Hm).
    apply allocated_iff in Ha as (H0 & H1 & H2 & H3 & H4).
    apply allocated_iff.
    destruct (_ || _); simpl; repeat split; try lia;
      intros o Ho; (specialize (H3 o Ho) || specialize (H4 o Ho)); lia.
Qed.

(** What the reducer does to the counters of a snapshot, contents only. *)
Lemma reducer_counters state action next :
  allocated state next = true ->
  let s := val state in
  let s' := val (fst (reducer state action next)) in
  val (NetworkStatus.pendingQueries s')
  = map_after Query action (val (NetworkStatus.pendingQueries s))
  /\ val (NetworkStatus.pendingMutations s')
     = map_after Mutation action (val (NetworkStatus.pendingMutations s))
  /\ NetworkStatus.numPendingQueries s'
     = total_after Query action (NetworkStatus.numPendingQueries s)
  /\ NetworkStatus.numPendingMutations s'
     = total_after Mutation action (NetworkStatus.numPendingMutations s).
Proof.
  intros Ha s s'. subst s'. unfold map_after, total_after, counts_as.
  destruct (isOperationType (operation_of action) Subscription) eqn:Hs.
  { rewrite (reducer_subscription _ _ _ Hs).
    simpl. repeat split. }
  cbn [negb andb].
  destruct (tracked action) eqn:Htr.
  - unfold tracked in Htr. rewrite Hs in Htr. simpl in Htr.
    apply orb_true_iff in Htr.
    rewrite (reducer_tracked _ _ _ Hs Htr Ha). cbv zeta.
    unfold pendingQueries, pendingMutations, numPendingQueries, numPendingMutations,
      numPendingOperations.
    destruct (isOperationType (operation_of action) Query) eqn:Hq;
      destruct (isOperationType (operation_of action) Mutation) eqn:Hm;
      rewrite ?(pendingOperations_match _ _ _ _ Hq), ?(pendingOperations_other _ _ _ _ Hq),
        ?(pendingOperations_match _ _ _ _ Hm), ?(pendingOperations_other _ _ _ _ Hm);
      destruct (queryError _ _ _) as [qe n3];
      destruct (mutationError _ _ _) as [me n4];
      simpl; repeat split;
      now destruct (NetworkStatusAction.type action).
  - unfold tracked in Htr. rewrite Hs in Htr. simpl in Htr.
    apply orb_false_iff in Htr as [Hq Hm].
    rewrite (reducer_untracked _ _ _ Hs Hq Hm), Hq, Hm.
    destruct (_ || _); simpl; repeat split.
Qed.

(** ** Documents with several definitions *)

(** C10: the kind of an operation is decided by scanning every definition
    of its document for an operation definition of that type.  An event
    whose document has a query and a mutation definition (and no
    subscription definition) moves the query and the mutation counters in
    the same step: on a REQUEST the entry of its name goes from [c] to
    [c + 1] in both maps and both totals go up by 1; on a SUCCESS, ERROR or
    CANCEL the entry goes to [max (c - 1) 0] in both maps and both totals
    to [max (n - 1) 0]; whatever the entries held, both maps get the entry
    the counter of their kind stores.  An event whose document has a
    subscription definition is left out altogether, whatever else the
    document defines. *)
Theorem mixed_document state action next cq cm nq nm :
  let operation := operation_of action in
  let name := Operation.operationName operation in
  let s := val state in
  let s' := val (fst (reducer state action next)) in
  let moved (before after : gmap string JsVal) :=
    after = <[name := stored (NetworkStatusAction.type action)
                        (default (VNum (Int 0)) (get before name))]> before in
  (forall type,
      isOperationType operation type = true <->
      exists definition,
        In definition (DocumentNode.definitions (Operation.query operation))
        /\ DefinitionNode.kind definition = "OperationDefinition"
        /\ DefinitionNode.operation definition = Some type)
  /\ (isOperationType operation Query = true ->
      isOperationType operation Mutation = true ->
      isOperationType operation Subscription = false ->
      allocated state next = true ->
      (moved (val (NetworkStatus.pendingQueries s))
             (val (NetworkStatus.pendingQueries s'))
       /\ moved (val (NetworkStatus.pendingMutations s))
                (val (NetworkStatus.pendingMutations s')))
      /\ (holds_count (val (NetworkStatus.pendingQueries s)) name cq ->
          holds_count (val (NetworkStatus.pendingMutations s)) name cm ->
          NetworkStatus.numPendingQueries s = Int nq ->
          NetworkStatus.numPendingMutations s = Int nm ->
          match NetworkStatusAction.type action with
          | REQUEST =>
              val (NetworkStatus.pendingQueries s')
              = <[name := VNum (Int (cq + 1))]> (val (NetworkStatus.pendingQueries s))
              /\ val (NetworkStatus.pendingMutations s')
                 = <[name := VNum (Int (cm + 1))]>
                     (val (NetworkStatus.pendingMutations s))
              /\ NetworkStatus.numPendingQueries s' = Int (nq + 1)
              /\ NetworkStatus.numPendingMutations s' = Int (nm + 1)
          | ERROR | SUCCESS | CANCEL =>
              val (NetworkStatus.pendingQueries s')
              = <[name := VNum (Int (Z.max (cq - 1) 0))]>
                  (val (NetworkStatus.pendingQueries s))
              /\ val (NetworkStatus.pendingMutations s')
                 = <[name := VNum (Int (Z.max (cm - 1) 0))]>
                     (val (NetworkStatus.pendingMutations s))
              /\ NetworkStatus.numPendingQueries s' = Int (Z.max (nq - 1) 0)
              /\ NetworkStatus.numPendingMutations s' = Int (Z.max (nm - 1) 0)
          end))
  /\ (isOperationType operation Subscription = true ->
      reducer state action next = (state, next)).
Proof.
  intros operation name s s' moved. split; [|split].
  - intros type. apply isOperationType_spec.
  - intros Hq Hm Hs Ha. subst s' moved. cbv beta.
    destruct (reducer_counters state action next Ha) as (-> & -> & -> & ->).
    unfold map_after, total_after, counts_as. fold operation. rewrite Hs, Hq, Hm.
    cbn [negb andb]. fold name. split; [split; reflexivity|].
    intros Hcq Hcm Hnq Hnm. fold s. rewrite Hnq, Hnm.
    assert (Hread : forall (m : gmap string JsVal) c,
               holds_count m name c ->
               default (VNum (Int 0)) (get m name) = VNum (Int c)).
    { intros m c [Hown | (Hnone & Hname & ->)]; unfold get.
      - now rewrite Hown.
      - rewrite Hnone. unfold inherited in Hname.
        now destruct (ObjectPrototype name). }
    rewrite (Hread _ _ Hcq), (Hread _ _ Hcm).
    destruct (NetworkStatusAction.type action); simpl; repeat split.
  - intros Hs. apply reducer_subscription. exact Hs.
Qed.

Lemma mixed_document_witness :
  let both :=
    DocumentNode.mk [DefinitionNode.mk "OperationDefinition" (Some Query);
                     DefinitionNode.mk "FragmentDefinition" None;
                     DefinitionNode.mk "OperationDefinition" (Some Mutation)] in
  let all :=
    DocumentNode.mk [DefinitionNode.mk "OperationDefinition" (Some Query);
                     DefinitionNode.mk "OperationDefinition" (Some Mutation);
                     DefinitionNode.mk "OperationDefinition" (Some Subscription)] in
  let send kind document :=
    NetworkStatusAction.mk kind
      (Payload.mk (Operation.mk document "Sync" None) None None) in
  let busy :=
    fst (dispatchAll initialState
           [send REQUEST both; event REQUEST Query "Sync"; send REQUEST both]
           initialNext) in
  let requested := val (fst (reducer initialState (send REQUEST both) initialNext)) in
  let answered := val (fst (reducer busy (send SUCCESS both) 11%nat)) in
  let clamped := val (fst (reducer initialState (send CANCEL both) initialNext)) in
  (val (NetworkStatus.pendingQueries requested) !! "Sync" = Some (VNum (Int 1))
   /\ val (NetworkStatus.pendingMutations requested) !! "Sync" = Some (VNum (Int 1))
   /\ NetworkStatus.numPendingQueries requested = Int 1
   /\ NetworkStatus.numPendingMutations requested = Int 1)
  /\ (val (NetworkStatus.pendingQueries answered) !! "Sync" = Some (VNum (Int 2))
      /\ val (NetworkStatus.pendingMutations answered) !! "Sync" = Some (VNum (Int 1))
      /\ NetworkStatus.numPendingQueries answered = Int 2
      /\ NetworkStatus.numPendingMutations answered = Int 1)
  /\ (val (NetworkStatus.pendingQueries clamped) !! "Sync" = Some (VNum (Int 0))
      /\ val (NetworkStatus.pendingMutations clamped) !! "Sync" = Some (VNum (Int 0))
      /\ NetworkStatus.numPendingQueries clamped = Int 0
      /\ NetworkStatus.numPendingMutations clamped = Int 0)
  /\ reducer initialState (send REQUEST all) initialNext = (initialState, initialNext).
Proof.
  intros both all send busy requested answered clamped.
  assert (Hfresh : holds_count ∅ "Sync" 0) by (right; repeat split).
  destruct (mixed_document initialState (send REQUEST both) initialNext 0 0 0 0)
    as (_ & Hrequest & _).
  destruct (Hrequest eq_refl eq_refl eq_refl eq_refl) as [_ Hrequested].
  destruct (Hrequested Hfresh Hfresh eq_refl eq_refl) as (Rpq & Rpm & Rnq & Rnm).
  destruct (mixed_document busy (send SUCCESS both) 11%nat 3 2 3 2)
    as (_ & Hanswer & _).
  destruct (Hanswer eq_refl eq_refl eq_refl eq_refl) as [_ Hanswered].
  destruct (Hanswered (or_introl eq_refl) (or_introl eq_refl) eq_refl eq_refl)
    as (Apq & Apm & Anq & Anm).
  destruct (mixed_document initialState (send CANCEL both) initialNext 0 0 0 0)
    as (_ & Hcancel & _).
  destruct (Hcancel eq_refl eq_refl eq_refl eq_refl) as [_ Hcancelled].
  destruct (Hcancelled Hfresh Hfresh eq_refl eq_refl) as (Cpq & Cpm & Cnq & Cnm).
  destruct (mixed_document initialState (send REQUEST all) initialNext 0 0 0 0)
    as (_ & _ & Hall).
  subst requested answered clamped.
  rewrite Rpq, Rpm, Rnq, Rnm, Apq, Apm, Anq, Anm, Cpq, Cpm, Cnq, Cnm.
  pose proof (Hall eq_refl) as Hexcluded.
  repeat split; assumption.
Defined.

Lemma dispatchAll_cons state action rest next :
  dispatchAll state (action :: rest) next =
  dispatchAll (fst (reducer state action next)) rest (snd (reducer state action next)).
Proof. simpl. unfold bind. now destruct (reducer state action next). Qed.

(** *** Counts and their sum *)

Lemma sum_values_empty : sum_values ∅ = 0.
Proof. apply map_fold_empty. Qed.

Lemma sum_values_insert_fresh (m : gmap string JsVal) name v :
  m !! name = None ->
  sum_values (<[name := v]> m) = count_of v + sum_values m.
Proof.
  intros H. unfold sum_values.
  rewrite (map_fold_insert_L (fun _ w acc => count_of w + acc) 0 name v m);
    [reflexivity | intros; lia | exact H].
Qed.

Lemma sum_values_insert (m : gmap string JsVal) name v :
  sum_values (<[name := v]> m) = sum_values m - count_at m name + count_of v.
Proof.
  unfold count_at. destruct (m !! name) as [w|] eqn:Hw; simpl.
  - rewrite <- (insert_delete_eq m name v).
    rewrite <- (insert_delete_id m name w Hw) at 2.
    rewrite !sum_values_insert_fresh by apply lookup_delete_eq. lia.
  - rewrite sum_values_insert_fresh by exact Hw. lia.
Qed.

Lemma count_at_le_sum (m : gmap string JsVal) name :
  map_Forall (fun _ v => is_count v) m -> 0 <= count_at m name <= sum_values m.
Proof.
  revert name. induction m as [|k v m Hk _ IH] using map_first_key_ind; intros name Hall.
  - unfold count_at. rewrite lookup_empty, sum_values_empty. simpl. lia.
  - apply map_Forall_insert in Hall as [(n & -> & Hn) Hall]; [|exact Hk].
    rewrite sum_values_insert_fresh by exact Hk. simpl.
    unfold count_at. rewrite lookup_insert. case_decide as Heq; simpl.
    + specialize (IH k Hall). lia.
    + specialize (IH name Hall). unfold count_at in IH. lia.
Qed.

Lemma get_ordinary (m : gmap string JsVal) name :
  inherited name = false ->
  map_Forall (fun _ v => is_count v) m ->
  default (VNum (Int 0)) (get m name) = VNum (Int (count_at m name))
  /\ 0 <= count_at m name.
Proof.
  intros Hname Hall. unfold get, count_at, inherited in *.
  destruct (m !! name) as [v|] eqn:Hv; simpl.
  - destruct (Hall name v Hv) as (n & -> & Hn). simpl. split; [reflexivity | exact Hn].
  - destruct (ObjectPrototype name); [discriminate|]. simpl. split; [reflexivity | lia].
Qed.

(** *** Counts never go below zero *)

Lemma counted_step type action m t :
  inherited (Operation.operationName (operation_of action)) = false ->
  counted m t ->
  counted (map_after type action m) (total_after type action t).
Proof.
  intros Hname [Hall (n & -> & Hn)]. unfold map_after, total_after.
  destruct (counts_as type action); [|split; [exact Hall | eauto]].
  destruct (get_ordinary m _ Hname Hall) as [-> Hc].
  pose proof (count_at_le_sum m (Operation.operationName (operation_of action)) Hall) as Hle.
  destruct (NetworkStatusAction.type action); simpl; (split;
    [ apply map_Forall_insert_2; [eexists; split; [reflexivity|lia] | exact Hall]
    | eexists; split; [reflexivity|]; rewrite sum_values_insert; simpl; lia ]).
Qed.

Lemma counted_snapshot_step state action next :
  allocated state next = true ->
  inherited (Operation.operationName (operation_of action)) = false ->
  counted_snapshot (val state) ->
  counted_snapshot (val (fst (reducer state action next))).
Proof.
  intros Ha Hname [Hq Hm]. unfold counted_snapshot.
  destruct (reducer_counters state action next Ha) as (-> & -> & -> & ->).
  split; apply counted_step; assumption.
Qed.

Lemma counted_snapshot_dispatchAll actions : forall state next,
  allocated state next = true ->
  ordinary_names actions = true ->
  counted_snapshot (val state) ->
  counted_snapshot (val (fst (dispatchAll state actions next))).
Proof.
  induction actions as [|action rest IH]; intros state next Ha Hnames Hc.
  - exact Hc.
  - rewrite dispatchAll_cons. simpl in Hnames.
    apply andb_true_iff in Hnames as [Hname Hrest].
    apply negb_true_iff in Hname.
    apply IH; [now apply reducer_allocated | exact Hrest |].
    now apply counted_snapshot_step.
Qed.

Lemma counted_snapshot_initial : counted_snapshot (val initialState).
Proof.
  split; (split; [apply map_Forall_empty |]);
    (exists 0; split; [reflexivity|]; simpl; rewrite sum_values_empty; lia).
Qed.

(** As long as no operation is named after a property of
    [Object.prototype], every per-name count and both totals of every
    reachable snapshot are integers that are not negative, whatever the
    order of the events; a total never exceeds the sum of its map. *)
Lemma counts_nonnegative_ordinary actions :
  ordinary_names actions = true ->
  counted_snapshot (val (fst (dispatchAll initialState actions initialNext))).
Proof.
  intros Hnames.
  apply counted_snapshot_dispatchAll;
    [reflexivity | exact Hnames | exact counted_snapshot_initial].
Qed.

(** C4: the claim is not met by the code.  A REQUEST for a query named
    [constructor] reads the inherited [Object.prototype.constructor] where the
    code expects [undefined]: the default 0 is not applied, [value + 1]
    concatenates, and the per-name entry is a string, not a count, while the
    total is 1; a SUCCESS that follows turns the entry into [NaN]. *)
Theorem inherited_name_breaks_count :
  let request := event REQUEST Query "constructor" in
  let answer := event SUCCESS Query "constructor" in
  let s1 := val (fst (reducer initialState request initialNext)) in
  let s2 := val (fst (dispatchAll initialState [request; answer] initialNext)) in
  val (NetworkStatus.pendingQueries s1) !! "constructor"
  = Some (VStr "function Object() { [native code] }1")
  /\ ~ is_count (VStr "function Object() { [native code] }1")
  /\ NetworkStatus.numPendingQueries s1 = Int 1
  /\ val (NetworkStatus.pendingQueries s2) !! "constructor" = Some (VNum NaN)
  /\ ~ is_count (VNum NaN)
  /\ NetworkStatus.numPendingQueries s2 = Int 0.
Proof.
  intros request answer s1 s2. repeat split; try (vm_compute; reflexivity).
  - intros (n & Hn & _). discriminate.
  - intros (n & Hn & _). discriminate.
Qed.

(** *** Totals agree with the maps when terminal events answer requests *)

Lemma answers_waiting seen action type :
  type = Query \/ type = Mutation ->
  answers seen action = true ->
  counts_as type action = true ->
  NetworkStatusAction.type action <> REQUEST ->
  0 < outstanding type (Operation.operationName (operation_of action)) seen.
Proof.
  unfold answers. intros Htype H Hc Hk.
  destruct (NetworkStatusAction.type action); [congruence | ..];
    simpl in H; rewrite !andb_true_iff, !orb_true_iff, !negb_true_iff in H;
    destruct H as (HQ & HM & _);
    (destruct Htype as [-> | ->];
     [destruct HQ as [HQ|HQ] | destruct HM as [HM|HM]];
     (congruence || now apply Z.ltb_lt)).
Qed.

Lemma count_at_insert (m : gmap string JsVal) x v name :
  count_at (<[x := v]> m) name
  = if String.eqb x name then count_of v else count_at m name.
Proof.
  unfold count_at. rewrite lookup_insert.
  destruct (String.eqb_spec x name) as [->|Hne]; case_decide; simpl; congruence.
Qed.

Lemma agrees_step type seen action m t :
  type = Query \/ type = Mutation ->
  inherited (Operation.operationName (operation_of action)) = false ->
  answers seen action = true ->
  agrees type seen m t ->
  agrees type (action :: seen) (map_after type action m) (total_after type action t).
Proof.
  intros Htype Hname Hans (Hall & -> & Hout).
  unfold map_after, total_after, agrees. simpl. unfold delta.
  destruct (counts_as type action) eqn:Hc; simpl.
  2:{ split; [exact Hall|]. split; [reflexivity|]. intros name. rewrite Hout. lia. }
  pose proof (answers_waiting seen action type Htype Hans Hc) as Hwait.
  set (x := Operation.operationName (operation_of action)) in *.
  destruct (get_ordinary m x Hname Hall) as [-> Hx].
  pose proof (count_at_le_sum m x Hall) as Hle.
  rewrite <- Hout in Hwait.
  destruct (NetworkStatusAction.type action); simpl;
    try (assert (0 < count_at m x) as Hpos by (apply Hwait; discriminate));
    (split; [|split];
     [ apply map_Forall_insert_2; [eexists; split; [reflexivity|lia] | exact Hall]
     | rewrite sum_values_insert; simpl; f_equal; lia
     | intros name; rewrite count_at_insert, <- Hout; simpl;
       destruct (String.eqb_spec x name) as [->|Hne]; lia ]).
Qed.

Lemma agrees_snapshot_dispatchAll actions : forall seen state next,
  allocated state next = true ->
  ordinary_names actions = true ->
  in_order_after seen actions = true ->
  agrees_snapshot seen (val state) ->
  agrees_snapshot (rev actions ++ seen) (val (fst (dispatchAll state actions next))).
Proof.
  induction actions as [|action rest IH]; intros seen state next Ha Hnames Horder Hs.
  - exact Hs.
  - rewrite dispatchAll_cons. simpl in Hnames, Horder |- *.
    apply andb_true_iff in Hnames as [Hname Hrest].
    apply negb_true_iff in Hname.
    apply andb_true_iff in Horder as [Hans Horder].
    rewrite <- app_assoc. simpl.
    apply IH; [now apply reducer_allocated | exact Hrest | exact Horder |].
    destruct Hs as [Hq Hm]. unfold agrees_snapshot.
    destruct (reducer_counters state action next Ha) as (-> & -> & -> & ->).
    split; apply agrees_step; auto.
Qed.

Lemma agrees_snapshot_initial : agrees_snapshot [] (val initialState).
Proof.
  split; (split; [apply map_Forall_empty |]);
    (split; [simpl; now rewrite sum_values_empty |]);
    intros name; unfold count_at; simpl; now rewrite lookup_empty.
Qed.

(** C1, as stated, fails: map and total are clamped at 0 independently.  A
    SUCCESS for a query name with nothing pending leaves the map's sum as it
    was and takes 1 off the total, which then misses a request still
    pending under another name. *)
Lemma unanswered_success_breaks_sum :
  let actions := [event REQUEST Query "B"; event SUCCESS Query "A"] in
  let s := val (fst (dispatchAll initialState actions initialNext)) in
  ordinary_names actions = true
  /\ sum_values (val (NetworkStatus.pendingQueries s)) = 1
  /\ NetworkStatus.numPendingQueries s = Int 0
  /\ NetworkStatus.numPendingQueries s
     <> Int (sum_values (val (NetworkStatus.pendingQueries s))).
Proof. vm_compute. repeat split; discriminate. Qed.

(** C1, amended: for every snapshot reached from [initialState] by a
    sequence of events in which each SUCCESS, ERROR or CANCEL of a tracked
    kind answers a request of the same kind and name that is still waiting,
    and in which no operation is named after a property of
    [Object.prototype], the per-name values are counts, [numPendingQueries] is
    the sum of the values of [pendingQueries] and [numPendingMutations] the
    sum of the values of [pendingMutations]. *)
Theorem totals_match_sums actions :
  ordinary_names actions = true ->
  answered_in_order actions = true ->
  let s := val (fst (dispatchAll initialState actions initialNext)) in
  map_Forall (fun _ v => is_count v) (val (NetworkStatus.pendingQueries s))
  /\ map_Forall (fun _ v => is_count v) (val (NetworkStatus.pendingMutations s))
  /\ NetworkStatus.numPendingQueries s
     = Int (sum_values (val (NetworkStatus.pendingQueries s)))
  /\ NetworkStatus.numPendingMutations s
     = Int (sum_values (val (NetworkStatus.pendingMutations s))).
Proof.
  intros Hnames Horder s.
  destruct (agrees_snapshot_dispatchAll actions [] initialState initialNext
              eq_refl Hnames Horder agrees_snapshot_initial)
    as [(Hq & Hnq & _) (Hm & Hnm & _)].
  subst s. auto.
Qed.

Lemma totals_match_sums_witness :
  let actions :=
    [event REQUEST Query "GetUser"; event REQUEST Mutation "AddItem";
     event REQUEST Query "Search"; event REQUEST Query "GetUser";
     failure Mutation "AddItem" "timeout";
     success Query "GetUser" (ExecutionResult.mk (Some "{}") None);
     event CANCEL Query "Search"] in
  let s := val (fst (dispatchAll initialState actions initialNext)) in
  NetworkStatus.numPendingQueries s = Int 1
  /\ NetworkStatus.numPendingQueries s
     = Int (sum_values (val (NetworkStatus.pendingQueries s)))
  /\ NetworkStatus.numPendingMutations s
     = Int (sum_values (val (NetworkStatus.pendingMutations s))).
Proof.
  intros actions s.
  destruct (totals_match_sums actions eq_refl eq_refl) as (_ & _ & Hq & Hm).
  split; [reflexivity|]. split; [exact Hq | exact Hm].
Defined.

(** * Further properties of the reducers *)

(** ** Runs of events *)

Lemma dispatchAll_allocated actions : forall state next,
  allocated state next = true ->
  allocated (fst (dispatchAll state actions next))
            (snd (dispatchAll state actions next)) = true.
Proof.
  induction actions as [|action rest IH]; intros state next Ha.
  - exact Ha.
  - rewrite dispatchAll_cons. apply IH. now apply reducer_allocated.
Qed.

Lemma dispatchAll_app actions more : forall state next,
  dispatchAll state (actions ++ more) next =
  dispatchAll (fst (dispatchAll state actions next)) more
              (snd (dispatchAll state actions next)).
Proof.
  induction actions as [|action rest IH]; intros state next.
  - reflexivity.
  - rewrite <- app_comm_cons, !dispatchAll_cons. apply IH.
Qed.

(** X1: as long as no operation is named after a property of
    [Object.prototype], every entry of [pendingQueries] and of
    [pendingMutations] in every snapshot reached from [initialState] is an
    integer that is not negative, in whatever order the events arrive: a
    terminal event without a request is clamped, never counted below 0. *)
Theorem counts_never_negative actions name v :
  ordinary_names actions = true ->
  let s := val (fst (dispatchAll initialState actions initialNext)) in
  val (NetworkStatus.pendingQueries s) !! name = Some v
  \/ val (NetworkStatus.pendingMutations s) !! name = Some v ->
  exists n : Z, v = VNum (Int n) /\ 0 <= n.
Proof.
  intros Hnames s Hv.
  destruct (counted_snapshot_dispatchAll actions initialState initialNext
              eq_refl Hnames counted_snapshot_initial) as [[Hq _] [Hm _]].
  destruct Hv as [Hv|Hv]; [exact (Hq name v Hv) | exact (Hm name v Hv)].
Qed.

Lemma counts_never_negative_witness :
  let actions :=
    [event CANCEL Query "GetUser"; event REQUEST Query "GetUser";
     event SUCCESS Query "GetUser"; event ERROR Query "GetUser"] in
  let s := val (fst (dispatchAll initialState actions initialNext)) in
  val (NetworkStatus.pendingQueries s) !! "GetUser" = Some (VNum (Int 0))
  /\ exists n : Z, VNum (Int 0) = VNum (Int n) /\ 0 <= n.
Proof.
  intros actions s. split; [reflexivity|].
  apply (counts_never_negative actions "GetUser" (VNum (Int 0)) eq_refl).
  left. reflexivity.
Defined.

(** X2: under the same condition on names, a total never exceeds the sum
    of its map: events out of order can only make [numPendingQueries] and
    [numPendingMutations] undercount. *)
Theorem total_at_most_sum actions :
  ordinary_names actions = true ->
  let s := val (fst (dispatchAll initialState actions initialNext)) in
  (exists n : Z, NetworkStatus.numPendingQueries s = Int n
                 /\ 0 <= n <= sum_values (val (NetworkStatus.pendingQueries s)))
  /\ (exists n : Z, NetworkStatus.numPendingMutations s = Int n
                    /\ 0 <= n <= sum_values (val (NetworkStatus.pendingMutations s))).
Proof.
  intros Hnames s.
  destruct (counted_snapshot_dispatchAll actions initialState initialNext
              eq_refl Hnames counted_snapshot_initial) as [[_ Hq] [_ Hm]].
  split; assumption.
Qed.

Lemma total_at_most_sum_witness :
  let actions :=
    [event REQUEST Mutation "AddItem"; event REQUEST Mutation "AddItem";
     event ERROR Mutation "RemoveItem"] in
  let s := val (fst (dispatchAll initialState actions initialNext)) in
  NetworkStatus.numPendingMutations s = Int 1
  /\ sum_values (val (NetworkStatus.pendingMutations s)) = 2
  /\ exists n : Z, NetworkStatus.numPendingMutations s = Int n
                   /\ 0 <= n <= sum_values (val (NetworkStatus.pendingMutations s)).
Proof.
  intros actions s. split; [reflexivity|]. split; [reflexivity|].
  apply (proj2 (total_at_most_sum actions eq_refl)).
Defined.

Lemma is_total_step type action t :
  is_total t -> is_total (total_after type action t).
Proof.
  intros (n & -> & Hn). unfold total_after.
  destruct (counts_as type action); [|exists n; split; [reflexivity | exact Hn]].
  destruct (NetworkStatusAction.type action); simpl;
    eexists; (split; [reflexivity | lia]).
Qed.

Lemma totals_dispatchAll actions : forall state next,
  allocated state next = true ->
  is_total (NetworkStatus.numPendingQueries (val state)) ->
  is_total (NetworkStatus.numPendingMutations (val state)) ->
  is_total (NetworkStatus.numPendingQueries (val (fst (dispatchAll state actions next))))
  /\ is_total (NetworkStatus.numPendingMutations
                 (val (fst (dispatchAll state actions next)))).
Proof.
  induction actions as [|action rest IH]; intros state next Ha Hq Hm.
  - split; assumption.
  - rewrite dispatchAll_cons.
    destruct (reducer_counters state action next Ha) as (_ & _ & Hnq & Hnm).
    apply IH; [now apply reducer_allocated | |].
    + rewrite Hnq. now apply is_total_step.
    + rewrite Hnm. now apply is_total_step.
Qed.

Lemma totals_initial :
  is_total (NetworkStatus.numPendingQueries (val initialState))
  /\ is_total (NetworkStatus.numPendingMutations (val initialState)).
Proof. split; exists 0; (split; [reflexivity | lia]). Qed.

(** X3: whatever the events and whatever the operation names (inherited
    names included), [numPendingQueries] and [numPendingMutations] of every
    snapshot reached from [initialState] are integers that are not
    negative: the totals never become [NaN] and never go below 0. *)
Theorem totals_never_negative actions :
  let s := val (fst (dispatchAll initialState actions initialNext)) in
  (exists n : Z, NetworkStatus.numPendingQueries s = Int n /\ 0 <= n)
  /\ (exists n : Z, NetworkStatus.numPendingMutations s = Int n /\ 0 <= n).
Proof.
  intros s. destruct totals_initial as [Hq Hm].
  exact (totals_dispatchAll actions initialState initialNext eq_refl Hq Hm).
Qed.

(** ** Counts against the events delivered *)

Lemma outstanding_app type name seen more :
  outstanding type name (seen ++ more)
  = outstanding type name seen + outstanding type name more.
Proof.
  unfold outstanding. induction seen as [|action seen IH]; simpl; [reflexivity|].
  rewrite IH. lia.
Qed.

Lemma outstanding_rev type name actions :
  outstanding type name (rev actions) = outstanding type name actions.
Proof.
  induction actions as [|action rest IH]; simpl; [reflexivity|].
  rewrite outstanding_app, IH. unfold outstanding. simpl. lia.
Qed.

Lemma requests_less_answers_app type seen more :
  requests_less_answers type (seen ++ more)
  = requests_less_answers type seen + requests_less_answers type more.
Proof.
  unfold requests_less_answers.
  induction seen as [|action seen IH]; simpl; [reflexivity|].
  rewrite IH. lia.
Qed.

Lemma requests_less_answers_rev type actions :
  requests_less_answers type (rev actions) = requests_less_answers type actions.
Proof.
  induction actions as [|action rest IH]; simpl; [reflexivity|].
  rewrite requests_less_answers_app, IH. unfold requests_less_answers. simpl. lia.
Qed.

(** X4: when every terminal event answers a waiting request and no
    operation is named after a property of [Object.prototype], the count a
    reachable snapshot gives a name (0 when the name has no entry) is the
    number of requests of that kind and name less the number of terminal
    events of that kind and name. *)
Theorem count_is_requests_less_answers actions name :
  ordinary_names actions = true ->
  answered_in_order actions = true ->
  let s := val (fst (dispatchAll initialState actions initialNext)) in
  count_at (val (NetworkStatus.pendingQueries s)) name = outstanding Query name actions
  /\ count_at (val (NetworkStatus.pendingMutations s)) name
     = outstanding Mutation name actions.
Proof.
  intros Hnames Horder s.
  destruct (agrees_snapshot_dispatchAll actions [] initialState initialNext
              eq_refl Hnames Horder agrees_snapshot_initial)
    as [(_ & _ & Hq) (_ & _ & Hm)].
  rewrite app_nil_r in Hq, Hm. subst s.
  rewrite Hq, Hm, !outstanding_rev. split; reflexivity.
Qed.

Lemma count_is_requests_less_answers_witness :
  let actions :=
    [event REQUEST Query "GetUser"; event REQUEST Query "Search";
     event REQUEST Query "GetUser"; event REQUEST Query "GetUser";
     event CANCEL Query "GetUser"; event SUCCESS Query "Search"] in
  let s := val (fst (dispatchAll initialState actions initialNext)) in
  outstanding Query "GetUser" actions = 2
  /\ count_at (val (NetworkStatus.pendingQueries s)) "GetUser"
     = outstanding Query "GetUser" actions.
Proof.
  intros actions s. split; [reflexivity|].
  apply (proj1 (count_is_requests_less_answers actions "GetUser" eq_refl eq_refl)).
Defined.

Lemma total_step_in_order type seen action m t :
  type = Query \/ type = Mutation ->
  answers seen action = true ->
  agrees type seen m t ->
  t = Int (requests_less_answers type seen) ->
  total_after type action t = Int (requests_less_answers type (action :: seen)).
Proof.
  intros Htype Hans (Hall & Hsum & Hout) ->.
  injection Hsum as Hsum.
  change (requests_less_answers type (action :: seen))
    with (delta_total type action + requests_less_answers type seen).
  set (r := requests_less_answers type seen) in *.
  unfold total_after, delta_total.
  destruct (counts_as type action) eqn:Hc; [|f_equal; lia].
  pose proof (answers_waiting seen action type Htype Hans Hc) as Hwait.
  pose proof (count_at_le_sum m (Operation.operationName (operation_of action)) Hall)
    as Hle.
  rewrite <- Hout in Hwait.
  destruct (NetworkStatusAction.type action); simpl; f_equal;
    try (assert (0 < count_at m (Operation.operationName (operation_of action)))
          by (apply Hwait; discriminate));
    lia.
Qed.

Lemma totals_in_order_dispatchAll actions : forall seen state next,
  allocated state next = true ->
  ordinary_names actions = true ->
  in_order_after seen actions = true ->
  agrees_snapshot seen (val state) ->
  NetworkStatus.numPendingQueries (val state) = Int (requests_less_answers Query seen) ->
  NetworkStatus.numPendingMutations (val state)
  = Int (requests_less_answers Mutation seen) ->
  let s' := val (fst (dispatchAll state actions next)) in
  NetworkStatus.numPendingQueries s'
  = Int (requests_less_answers Query (rev actions ++ seen))
  /\ NetworkStatus.numPendingMutations s'
     = Int (requests_less_answers Mutation (rev actions ++ seen)).
Proof.
  induction actions as [|action rest IH];
    intros seen state next Ha Hnames Horder Hs Hq Hm.
  - split; assumption.
  - cbv zeta. rewrite dispatchAll_cons. simpl in Hnames, Horder |- *.
    apply andb_true_iff in Hnames as [Hname Hrest].
    apply negb_true_iff in Hname.
    apply andb_true_iff in Horder as [Hans Horder].
    rewrite <- app_assoc. simpl.
    destruct Hs as [Hsq Hsm].
    destruct (reducer_counters state action next Ha) as (Epq & Epm & Enq & Enm).
    apply IH; [now apply reducer_allocated | exact Hrest | exact Horder | | |].
    + unfold agrees_snapshot. rewrite Epq, Epm, Enq, Enm.
      split; apply agrees_step; auto.
    + rewrite Enq. eapply total_step_in_order; eauto.
    + rewrite Enm. eapply total_step_in_order; eauto.
Qed.

(** X5: under the same two conditions, [numPendingQueries] is the number
    of query requests delivered less the number of query terminal events
    delivered, and likewise [numPendingMutations]: the total is never
    clamped. *)
Theorem total_is_requests_less_answers actions :
  ordinary_names actions = true ->
  answered_in_order actions = true ->
  let s := val (fst (dispatchAll initialState actions initialNext)) in
  NetworkStatus.numPendingQueries s = Int (requests_less_answers Query actions)
  /\ NetworkStatus.numPendingMutations s = Int (requests_less_answers Mutation actions).
Proof.
  intros Hnames Horder s.
  destruct (totals_in_order_dispatchAll actions [] initialState initialNext
              eq_refl Hnames Horder agrees_snapshot_initial eq_refl eq_refl)
    as [Hq Hm].
  rewrite app_nil_r, requests_less_answers_rev in Hq, Hm.
  split; assumption.
Qed.

Lemma total_is_requests_less_answers_witness :
  let actions :=
    [event REQUEST Query "GetUser"; event REQUEST Mutation "AddItem";
     event REQUEST Query "Search"; failure Mutation "AddItem" "timeout";
     event REQUEST Query "GetUser"; event SUCCESS Query "Search"] in
  let s := val (fst (dispatchAll initialState actions initialNext)) in
  requests_less_answers Query actions = 2
  /\ NetworkStatus.numPendingQueries s = Int (requests_less_answers Query actions)
  /\ NetworkStatus.numPendingMutations s = Int (requests_less_answers Mutation actions).
Proof.
  intros actions s. split; [reflexivity|].
  apply (total_is_requests_less_answers actions eq_refl eq_refl).
Defined.

(** ** What an event leaves alone *)

(** X6: an event whose document has no mutation definition leaves the
    mutation side of the snapshot exactly as it was: [pendingMutations] is
    the same object, [numPendingMutations] the same number and
    [mutationError] the same object or still absent.  Likewise an event
    without a query definition leaves the query side alone. *)
Theorem other_kind_untouched state action next :
  let s := val state in
  let s' := val (fst (reducer state action next)) in
  (isOperationType (operation_of action) Mutation = false ->
   NetworkStatus.pendingMutations s' = NetworkStatus.pendingMutations s
   /\ NetworkStatus.numPendingMutations s' = NetworkStatus.numPendingMutations s
   /\ NetworkStatus.mutationError s' = NetworkStatus.mutationError s)
  /\ (isOperationType (operation_of action) Query = false ->
      NetworkStatus.pendingQueries s' = NetworkStatus.pendingQueries s
      /\ NetworkStatus.numPendingQueries s' = NetworkStatus.numPendingQueries s
      /\ NetworkStatus.queryError s' = NetworkStatus.queryError s).
Proof.
  intros s s'. subst s s'.
  destruct (isOperationType (operation_of action) Subscription) eqn:Hs.
  { rewrite (reducer_subscription _ _ _ Hs). simpl. repeat split. }
  rewrite (reducer_unfold _ _ _ Hs). cbv zeta.
  unfold pendingQueries, pendingMutations, queryError, mutationError,
    numPendingQueries, numPendingMutations.
  split; intros Hk.
  - destruct (pendingOperations Query _ _ _) as [pq n1].
    rewrite (pendingOperations_other _ _ _ _ Hk).
    destruct (latestOperationError Query _ _ _) as [qe n3].
    rewrite (latestOperationError_other _ _ _ _ Hk).
    rewrite (numPendingOperations_other Mutation _ _ Hk).
    destruct (existsb _ _); simpl; repeat split.
  - rewrite (pendingOperations_other _ _ _ _ Hk).
    destruct (pendingOperations Mutation _ _ _) as [pm n2].
    rewrite (latestOperationError_other _ _ _ _ Hk).
    destruct (latestOperationError Mutation _ _ _) as [me n4].
    rewrite (numPendingOperations_other Query _ _ Hk).
    destruct (existsb _ _); simpl; repeat split.
Qed.

Lemma other_kind_untouched_witness :
  let busy :=
    [event REQUEST Mutation "AddItem"; failure Mutation "AddItem" "timeout";
     event REQUEST Mutation "AddItem"] in
  let state := fst (dispatchAll initialState busy initialNext) in
  let s' := val (fst (reducer state (event REQUEST Query "GetUser") 12%nat)) in
  NetworkStatus.pendingMutations s' = NetworkStatus.pendingMutations (val state)
  /\ NetworkStatus.numPendingMutations s' = Int 1
  /\ NetworkStatus.mutationError s' = NetworkStatus.mutationError (val state).
Proof.
  intros busy state s'.
  destruct (proj1 (other_kind_untouched state (event REQUEST Query "GetUser") 12%nat)
              eq_refl) as (Hpm & Hnm & Hme).
  split; [exact Hpm|]. split; [|exact Hme].
  subst s'. rewrite Hnm. reflexivity.
Defined.

Lemma latestOperationError_idle type state action next :
  NetworkStatusAction.type action = CANCEL
  \/ (NetworkStatusAction.type action = SUCCESS /\ carries_errors action = false) ->
  latestOperationError type state action next = (state, next).
Proof.
  intros H. unfold latestOperationError.
  destruct (isOperationType _ type); simpl; [|reflexivity].
  destruct H as [-> | [-> H]]; [reflexivity|].
  unfold carries_errors in H.
  destruct (Payload.result _) as [result|]; [|reflexivity].
  destruct (ExecutionResult.errors result); [discriminate | reflexivity].
Qed.

(** X7: a CANCEL event, and a SUCCESS event whose result carries no
    [errors] entry, leave both error fields of the snapshot as they were:
    neither clears a recorded error nor records one, whatever the kind of
    the operation. *)
Theorem cancel_and_clean_success_keep_errors state action next :
  NetworkStatusAction.type action = CANCEL
  \/ (NetworkStatusAction.type action = SUCCESS /\ carries_errors action = false) ->
  let s' := val (fst (reducer state action next)) in
  NetworkStatus.queryError s' = NetworkStatus.queryError (val state)
  /\ NetworkStatus.mutationError s' = NetworkStatus.mutationError (val state).
Proof.
  intros H s'. subst s'.
  destruct (isOperationType (operation_of action) Subscription) eqn:Hs.
  { rewrite (reducer_subscription _ _ _ Hs). split; reflexivity. }
  rewrite (reducer_unfold _ _ _ Hs). cbv zeta.
  unfold queryError, mutationError.
  destruct (pendingQueries _ _ _) as [pq n1].
  destruct (pendingMutations _ _ _) as [pm n2].
  rewrite !(latestOperationError_idle _ _ _ _ H).
  destruct (existsb _ _); split; reflexivity.
Qed.

Lemma cancel_and_clean_success_keep_errors_witness :
  let state :=
    fst (dispatchAll initialState
           [failure Query "Search" "timeout"; event REQUEST Query "Search"] initialNext) in
  let failed :=
    fst (dispatchAll initialState
           [event REQUEST Query "Search"; failure Query "Search" "timeout"] initialNext) in
  let clean := success Query "GetUser" (ExecutionResult.mk (Some "{}") None) in
  NetworkStatus.queryError (val (fst (reducer state (event CANCEL Query "Search") 8%nat)))
  = None
  /\ NetworkStatus.queryError (val (fst (reducer failed clean 8%nat)))
     = NetworkStatus.queryError (val failed)
  /\ is_Some (NetworkStatus.queryError (val failed)).
Proof.
  intros state failed clean. split; [|split].
  - apply (proj1 (cancel_and_clean_success_keep_errors state
                    (event CANCEL Query "Search") 8%nat (or_introl eq_refl))).
  - apply (proj1 (cancel_and_clean_success_keep_errors failed clean 8%nat
                    (or_intror (conj eq_refl eq_refl)))).
  - vm_compute. eexists. reflexivity.
Defined.

Lemma map_after_other type action (m : gmap string JsVal) name :
  name <> Operation.operationName (operation_of action) ->
  map_after type action m !! name = m !! name.
Proof.
  intros Hne. unfold map_after.
  destruct (counts_as type action); [|reflexivity].
  now rewrite lookup_insert_ne by congruence.
Qed.

Lemma map_after_keeps type action (m : gmap string JsVal) name :
  is_Some (m !! name) -> is_Some (map_after type action m !! name).
Proof.
  intros H. unfold map_after.
  destruct (counts_as type action); [|exact H].
  rewrite lookup_insert. case_decide; [eexists; reflexivity | exact H].
Qed.

(** X8: an event changes at most the entry of its own operation name:
    every other name keeps its entry, or its absence, in both maps; and no
    entry is ever removed, a name that finished keeps its entry at 0. *)
Theorem only_own_entry_changes state action next :
  allocated state next = true ->
  let s := val state in
  let s' := val (fst (reducer state action next)) in
  (forall name,
      name <> Operation.operationName (operation_of action) ->
      val (NetworkStatus.pendingQueries s') !! name
      = val (NetworkStatus.pendingQueries s) !! name
      /\ val (NetworkStatus.pendingMutations s') !! name
         = val (NetworkStatus.pendingMutations s) !! name)
  /\ (forall name,
         (is_Some (val (NetworkStatus.pendingQueries s) !! name) ->
          is_Some (val (NetworkStatus.pendingQueries s') !! name))
         /\ (is_Some (val (NetworkStatus.pendingMutations s) !! name) ->
             is_Some (val (NetworkStatus.pendingMutations s') !! name))).
Proof.
  intros Ha s s'. subst s s'.
  destruct (reducer_counters state action next Ha) as (-> & -> & _ & _).
  split; intros name.
  - intros Hne. split; now apply map_after_other.
  - split; apply map_after_keeps.
Qed.

Lemma only_own_entry_changes_witness :
  let state :=
    fst (dispatchAll initialState
           [event REQUEST Query "GetUser"; event REQUEST Query "Search"] initialNext) in
  let s' := val (fst (reducer state (event SUCCESS Query "GetUser") 7%nat)) in
  val (NetworkStatus.pendingQueries s') !! "Search" = Some (VNum (Int 1))
  /\ is_Some (val (NetworkStatus.pendingQueries s') !! "GetUser")
  /\ val (NetworkStatus.pendingQueries s') !! "GetUser" = Some (VNum (Int 0)).
Proof.
  intros state s'.
  destruct (only_own_entry_changes state (event SUCCESS Query "GetUser") 7%nat eq_refl)
    as [Hother Hkeeps].
  split; [|split].
  - subst s'. rewrite (proj1 (Hother "Search" ltac:(discriminate))). reflexivity.
  - apply (proj1 (Hkeeps "GetUser")). eexists. reflexivity.
  - reflexivity.
Defined.

(** ** A request and its answer *)

Lemma round_trip_kind type request answer (m : gmap string JsVal) t :
  counted m t ->
  inherited (Operation.operationName (operation_of request)) = false ->
  NetworkStatusAction.type request = REQUEST ->
  terminal answer = true ->
  operation_of answer = operation_of request ->
  (forall name,
      count_at (map_after type answer (map_after type request m)) name
      = count_at m name)
  /\ total_after type answer (total_after type request t) = t.
Proof.
  intros [Hall (n & -> & Hn)] Hname Hreq Hterm Hop.
  unfold map_after, total_after, counts_as. rewrite Hop, Hreq.
  destruct (negb _ && _); [|split; reflexivity].
  set (x := Operation.operationName (operation_of request)) in *.
  destruct (get_ordinary m x Hname Hall) as [-> Hc].
  unfold get. rewrite lookup_insert_eq. simpl.
  unfold terminal in Hterm.
  destruct (NetworkStatusAction.type answer); [discriminate | ..]; simpl;
    (split;
     [ intros name; rewrite !count_at_insert; simpl;
       destruct (String.eqb_spec x name) as [->|Hne]; [lia | reflexivity]
     | f_equal; lia ]).
Qed.

(** X9: from a reachable snapshot, a REQUEST followed at once by a terminal
    event (SUCCESS, ERROR or CANCEL) for the same operation brings every
    per-name count and both totals back to what they were before the
    request, provided no operation is named after a property of
    [Object.prototype]. *)
Theorem request_then_answer_restores actions request answer :
  ordinary_names (actions ++ [request; answer]) = true ->
  NetworkStatusAction.type request = REQUEST ->
  terminal answer = true ->
  operation_of answer = operation_of request ->
  let s := val (fst (dispatchAll initialState actions initialNext)) in
  let s'' := val (fst (dispatchAll initialState (actions ++ [request; answer])
                         initialNext)) in
  (forall name,
      count_at (val (NetworkStatus.pendingQueries s'')) name
      = count_at (val (NetworkStatus.pendingQueries s)) name
      /\ count_at (val (NetworkStatus.pendingMutations s'')) name
         = count_at (val (NetworkStatus.pendingMutations s)) name)
  /\ NetworkStatus.numPendingQueries s'' = NetworkStatus.numPendingQueries s
  /\ NetworkStatus.numPendingMutations s'' = NetworkStatus.numPendingMutations s.
Proof.
  intros Hnames Hreq Hterm Hop s s''. subst s s''.
  unfold ordinary_names in Hnames. rewrite forallb_app in Hnames.
  apply andb_true_iff in Hnames as [Hnames Hlast].
  simpl in Hlast. apply andb_true_iff in Hlast as [Hname _].
  apply negb_true_iff in Hname.
  rewrite dispatchAll_app.
  pose proof (dispatchAll_allocated actions initialState initialNext eq_refl) as Ha.
  pose proof (counted_snapshot_dispatchAll actions initialState initialNext
                eq_refl Hnames counted_snapshot_initial) as [Hq Hm].
  destruct (dispatchAll initialState actions initialNext) as [state next].
  simpl in Ha, Hq, Hm. cbn [fst snd].
  rewrite !dispatchAll_cons. cbn [dispatchAll ret fst snd].
  pose proof (reducer_allocated state request next Ha) as Ha'.
  destruct (reducer_counters _ answer _ Ha') as (-> & -> & -> & ->).
  destruct (reducer_counters state request next Ha) as (-> & -> & -> & ->).
  destruct (round_trip_kind Query request answer _ _ Hq Hname Hreq Hterm Hop)
    as [Hcq Htq].
  destruct (round_trip_kind Mutation request answer _ _ Hm Hname Hreq Hterm Hop)
    as [Hcm Htm].
  split; [intros name; split; [apply Hcq | apply Hcm] | split; assumption].
Qed.

Lemma request_then_answer_restores_witness :
  let actions := [event REQUEST Query "GetUser"; event REQUEST Mutation "AddItem"] in
  let request := event REQUEST Query "GetUser" in
  let answer := failure Query "GetUser" "timeout" in
  let s'' := val (fst (dispatchAll initialState (actions ++ [request; answer])
                         initialNext)) in
  count_at (val (NetworkStatus.pendingQueries s'')) "GetUser" = 1
  /\ NetworkStatus.numPendingQueries s'' = Int 1
  /\ NetworkStatus.numPendingMutations s'' = Int 1.
Proof.
  intros actions request answer s''.
  destruct (request_then_answer_restores actions request answer
              eq_refl eq_refl eq_refl eq_refl) as (Hc & Hq & Hm).
  split; [|split].
  - subst s''. rewrite (proj1 (Hc "GetUser")). reflexivity.
  - subst s''. rewrite Hq. reflexivity.
  - subst s''. rewrite Hm. reflexivity.
Defined.

(** ** The gate over a run of events *)

(** X10: delivering a run of events through the configured reducer gives
    the snapshot, and uses the addresses, that delivering only the events
    the predicate accepts to the plain reducer gives: a rejected event
    leaves no trace, and an accepted one is reduced as if there were no
    gate. *)
Theorem gate_filters_events shouldHandleOperation actions : forall state next,
  dispatchAllGated shouldHandleOperation state actions next
  = dispatchAll state (accepted shouldHandleOperation actions) next.
Proof.
  induction actions as [|action rest IH]; intros state next; [reflexivity|].
  simpl. unfold bind, configuredReducer.
  destruct (default defaultShouldHandleOperation shouldHandleOperation
              (operation_of action)); simpl.
  - unfold bind. destruct (reducer state action next) as [state' next'].
    apply IH.
  - apply IH.
Qed.

(** ** The error fields over a run of events *)

Lemma latestOperationError_contents type state action next :
  val <$> fst (latestOperationError type state action next)
  = if isOperationType (operation_of action) type
       && match NetworkStatusAction.type action with
          | REQUEST | ERROR => true
          | SUCCESS => carries_errors action
          | CANCEL => false
          end
    then outcome action
    else val <$> state.
Proof.
  unfold latestOperationError, outcome, carries_errors, bind, new, ret.
  destruct (isOperationType _ type); simpl; [|reflexivity].
  destruct (NetworkStatusAction.type action); simpl; try reflexivity.
  destruct (Payload.result _) as [result|]; [|reflexivity].
  destruct (ExecutionResult.errors result); reflexivity.
Qed.

Lemma reducer_errors state action next :
  allocated state next = true ->
  let s := val state in
  let s' := val (fst (reducer state action next)) in
  val <$> NetworkStatus.queryError s'
  = (if decisive Query action then outcome action
     else val <$> NetworkStatus.queryError s)
  /\ val <$> NetworkStatus.mutationError s'
     = (if decisive Mutation action then outcome action
        else val <$> NetworkStatus.mutationError s).
Proof.
  intros Ha s s'. subst s s'. unfold decisive, counts_as.
  destruct (isOperationType (operation_of action) Subscription) eqn:Hs.
  { rewrite (reducer_subscription _ _ _ Hs). split; reflexivity. }
  cbn [negb andb].
  destruct (tracked action) eqn:Htr; unfold tracked in Htr; rewrite Hs in Htr;
    simpl in Htr.
  - apply orb_true_iff in Htr.
    rewrite (reducer_tracked _ _ _ Hs Htr Ha). cbv zeta.
    destruct (pendingQueries _ _ _) as [pq n1].
    destruct (pendingMutations _ _ _) as [pm n2].
    unfold queryError, mutationError.
    pose proof (latestOperationError_contents Query
                  (NetworkStatus.queryError (val state)) action n2) as Hq.
    destruct (latestOperationError Query _ _ _) as [qe n3].
    pose proof (latestOperationError_contents Mutation
                  (NetworkStatus.mutationError (val state)) action n3) as Hm.
    destruct (latestOperationError Mutation _ _ _) as [me n4].
    split; assumption.
  - apply orb_false_iff in Htr as [Hq Hm].
    rewrite (reducer_untracked _ _ _ Hs Hq Hm), Hq, Hm.
    destruct (_ || _); split; reflexivity.
Qed.

Lemma find_app_first {A : Type} (f : A -> bool) (l l' : list A) :
  find f (l ++ l') = match find f l with
                     | Some x => Some x
                     | None => find f l'
                     end.
Proof.
  induction l as [|x l IH]; simpl; [reflexivity|].
  destruct (f x); [reflexivity | exact IH].
Qed.

Lemma latest_error_cons type action rest before :
  latest_error type (action :: rest) before
  = latest_error type rest (if decisive type action then outcome action else before).
Proof.
  unfold latest_error. simpl. rewrite find_app_first.
  destruct (find (decisive type) (rev rest)); [reflexivity|].
  simpl. destruct (decisive type action); reflexivity.
Qed.

Lemma errors_dispatchAll actions : forall state next,
  allocated state next = true ->
  let s' := val (fst (dispatchAll state actions next)) in
  val <$> NetworkStatus.queryError s'
  = latest_error Query actions (val <$> NetworkStatus.queryError (val state))
  /\ val <$> NetworkStatus.mutationError s'
     = latest_error Mutation actions (val <$> NetworkStatus.mutationError (val state)).
Proof.
  induction actions as [|action rest IH]; intros state next Ha.
  - split; reflexivity.
  - cbv zeta. rewrite dispatchAll_cons, !latest_error_cons.
    destruct (reducer_errors state action next Ha) as [<- <-].
    apply IH. now apply reducer_allocated.
Qed.

(** X11: after any run of events from [initialState], [queryError] holds
    what the latest decisive query event left: nothing after a REQUEST, the
    network error after an ERROR, the GraphQL errors after a SUCCESS that
    carries errors; it is absent when the run has no decisive query event.
    CANCEL events, SUCCESS events without errors, subscriptions and events
    of the other kind never count.  Likewise for [mutationError]. *)
Theorem error_is_latest_decisive_outcome actions :
  let s := val (fst (dispatchAll initialState actions initialNext)) in
  val <$> NetworkStatus.queryError s = latest_error Query actions None
  /\ val <$> NetworkStatus.mutationError s = latest_error Mutation actions None.
Proof.
  intros s. exact (errors_dispatchAll actions initialState initialNext eq_refl).
Qed.

(** ** Entries that are not counts *)

Lemma poisoned_stored kind v : poisoned v = true -> poisoned (stored kind v) = true.
Proof. destruct kind, v as [[n|]|s|f|]; simpl; intros H; congruence. Qed.

Lemma map_after_poisoned type action (m : gmap string JsVal) name v :
  m !! name = Some v ->
  poisoned v = true ->
  exists v', map_after type action m !! name = Some v' /\ poisoned v' = true.
Proof.
  intros Hv Hp. unfold map_after.
  destruct (counts_as type action); [|eauto].
  rewrite lookup_insert. case_decide as Heq; [|eauto].
  rewrite Heq. unfold get. rewrite Hv. simpl.
  eexists. split; [reflexivity | now apply poisoned_stored].
Qed.

Lemma poisoned_dispatchAll actions : forall state next name,
  allocated state next = true ->
  let s' := val (fst (dispatchAll state actions next)) in
  (forall v,
      val (NetworkStatus.pendingQueries (val state)) !! name = Some v ->
      poisoned v = true ->
      exists v', val (NetworkStatus.pendingQueries s') !! name = Some v'
                 /\ poisoned v' = true)
  /\ (forall v,
         val (NetworkStatus.pendingMutations (val state)) !! name = Some v ->
         poisoned v = true ->
         exists v', val (NetworkStatus.pendingMutations s') !! name = Some v'
                    /\ poisoned v' = true).
Proof.
  induction actions as [|action rest IH]; intros state next name Ha.
  - split; eauto.
  - cbv zeta. rewrite dispatchAll_cons.
    destruct (IH _ _ name (reducer_allocated state action next Ha)) as [IHq IHm].
    destruct (reducer_counters state action next Ha) as (Epq & Epm & _ & _).
    split; intros v Hv Hp.
    + destruct (map_after_poisoned Query action _ name v Hv Hp) as (v1 & Hv1 & Hp1).
      rewrite <- Epq in Hv1. exact (IHq v1 Hv1 Hp1).
    + destruct (map_after_poisoned Mutation action _ name v Hv Hp) as (v1 & Hv1 & Hp1).
      rewrite <- Epm in Hv1. exact (IHm v1 Hv1 Hp1).
Qed.

(** X12: an entry that is not an integer never becomes one again: once a
    snapshot reached from [initialState] holds a string or [NaN] under a
    name, every snapshot reached from it holds a string or [NaN] under that
    name, whatever events follow. *)
Theorem poisoned_entry_stays actions more name v :
  let s := val (fst (dispatchAll initialState actions initialNext)) in
  let s' := val (fst (dispatchAll initialState (actions ++ more) initialNext)) in
  poisoned v = true ->
  (val (NetworkStatus.pendingQueries s) !! name = Some v ->
   exists v', val (NetworkStatus.pendingQueries s') !! name = Some v'
              /\ poisoned v' = true)
  /\ (val (NetworkStatus.pendingMutations s) !! name = Some v ->
      exists v', val (NetworkStatus.pendingMutations s') !! name = Some v'
                 /\ poisoned v' = true).
Proof.
  intros s s' Hp. subst s s'. rewrite dispatchAll_app.
  pose proof (dispatchAll_allocated actions initialState initialNext eq_refl) as Ha.
  destruct (poisoned_dispatchAll more _ _ name Ha) as [Hq Hm].
  split; intros Hv; [exact (Hq v Hv Hp) | exact (Hm v Hv Hp)].
Qed.

Lemma poisoned_entry_stays_witness :
  let actions := [event REQUEST Query "toString"] in
  let more :=
    [event SUCCESS Query "toString"; event REQUEST Query "toString";
     event CANCEL Query "toString"] in
  let s := val (fst (dispatchAll initialState actions initialNext)) in
  let s' := val (fst (dispatchAll initialState (actions ++ more) initialNext)) in
  val (NetworkStatus.pendingQueries s) !! "toString"
  = Some (VStr "function toString() { [native code] }1")
  /\ exists v', val (NetworkStatus.pendingQueries s') !! "toString" = Some v'
                /\ poisoned v' = true.
Proof.
  intros actions more s s'. split; [reflexivity|].
  apply (proj1 (poisoned_entry_stays actions more "toString"
                  (VStr "function toString() { [native code] }1") eq_refl)).
  reflexivity.
Defined.

(** ** Identity on reachable snapshots *)

Lemma identity_unless_tracked state action next :
  allocated state next = true ->
  is_total (NetworkStatus.numPendingQueries (val state)) ->
  is_total (NetworkStatus.numPendingMutations (val state)) ->
  same_object (fst (reducer state action next)) state = negb (tracked action).
Proof.
  intros Ha (nq & Hnq & _) (nm & Hnm & _). unfold tracked.
  destruct (isOperationType (operation_of action) Subscription) eqn:Hs.
  { rewrite (reducer_subscription _ _ _ Hs). apply same_object_refl. }
  destruct (_ || _) eqn:Hk; simpl.
  - apply orb_true_iff in Hk.
    rewrite (reducer_tracked _ _ _ Hs Hk Ha). cbv zeta. name_results.
    apply allocated_iff in Ha as (Ha & _).
    apply (same_object_fresh (S (addr state)) next); simpl; lia.
  - apply orb_false_iff in Hk as [Hq Hm].
    rewrite (reducer_untracked _ _ _ Hs Hq Hm), Hnq, Hnm, !num_strict_ne_refl.
    apply same_object_refl.
Qed.

(** X13: on every snapshot reached from [initialState], whatever the
    events and the names that led to it, the reducer returns the snapshot
    object it was given exactly when the next event is not tracked (its
    document has a subscription definition, or neither a query nor a
    mutation definition); for every tracked event it returns a new
    object. *)
Theorem reachable_identity_unless_tracked actions action :
  let reached := dispatchAll initialState actions initialNext in
  same_object (fst (reducer (fst reached) action (snd reached))) (fst reached)
  = negb (tracked action).
Proof.
  intros reached. subst reached.
  destruct totals_initial as [Hq Hm].
  destruct (totals_dispatchAll actions initialState initialNext eq_refl Hq Hm)
    as [Hq' Hm'].
  apply identity_unless_tracked;
    [now apply dispatchAll_allocated | exact Hq' | exact Hm'].
Qed.

(** X14: every name inherited from [Object.prototype] is affected, not
    only one: when a tracked event's operation name is such a name and the
    map of its kind has no entry for it yet, the entry the reducer creates
    is a string or [NaN], whatever the kind of the event. *)
Theorem inherited_name_poisons_entry state action next :
  allocated state next = true ->
  inherited (Operation.operationName (operation_of action)) = true ->
  let name := Operation.operationName (operation_of action) in
  let s := val state in
  let s' := val (fst (reducer state action next)) in
  (counts_as Query action = true ->
   val (NetworkStatus.pendingQueries s) !! name = None ->
   exists v, val (NetworkStatus.pendingQueries s') !! name = Some v
             /\ poisoned v = true)
  /\ (counts_as Mutation action = true ->
      val (NetworkStatus.pendingMutations s) !! name = None ->
      exists v, val (NetworkStatus.pendingMutations s') !! name = Some v
                /\ poisoned v = true).
Proof.
  intros Ha Hname name s s'. subst s s'.
  destruct (reducer_counters state action next Ha) as (-> & -> & _ & _).
  assert (Hget : forall m : gmap string JsVal,
             m !! name = None ->
             poisoned (default (VNum (Int 0)) (get m name)) = true).
  { intros m Hm. unfold get. rewrite Hm. unfold inherited in Hname.
    fold name in Hname. unfold ObjectPrototype in *.
    destruct (String.eqb name "constructor"); [reflexivity|].
    destruct (String.eqb name "__proto__"); [reflexivity|].
    destruct (existsb _ _); [reflexivity | discriminate]. }
  split; intros Hc Hnone; unfold map_after; rewrite Hc; fold name;
    rewrite lookup_insert_eq; eexists; (split; [reflexivity|]);
    apply poisoned_stored, Hget, Hnone.
Qed.

Lemma inherited_name_poisons_entry_witness :
  let state := fst (dispatchAll initialState [event REQUEST Query "GetUser"] initialNext) in
  let action := event CANCEL Mutation "valueOf" in
  val (NetworkStatus.pendingMutations (val (fst (reducer state action 5%nat))))
    !! "valueOf" = Some (VNum NaN)
  /\ exists v,
      val (NetworkStatus.pendingMutations (val (fst (reducer state action 5%nat))))
        !! "valueOf" = Some v
      /\ poisoned v = true.
Proof.
  intros state action. split; [reflexivity|].
  apply (proj2 (inherited_name_poisons_entry state action 5%nat eq_refl eq_refl));
    reflexivity.
Defined.

(** X15: an event whose document has no operation definition at all (an
    empty document, or fragments only) changes nothing: on every snapshot
    reached from [initialState] the reducer returns the object it was
    given. *)
Theorem no_operation_definition_no_change actions action :
  (forall definition,
      In definition (DocumentNode.definitions (Operation.query (operation_of action))) ->
      DefinitionNode.kind definition <> "OperationDefinition") ->
  let reached := dispatchAll initialState actions initialNext in
  fst (reducer (fst reached) action (snd reached)) = fst reached.
Proof.
  intros Hnone reached. subst reached.
  assert (Hno : forall type, isOperationType (operation_of action) type = false).
  { intros type. apply not_true_is_false. intros H.
    apply isOperationType_spec in H as (d & Hin & Hk & _).
    exact (Hnone d Hin Hk). }
  destruct totals_initial as [Hq Hm].
  destruct (totals_dispatchAll actions initialState initialNext eq_refl Hq Hm)
    as [(nq & Hnq & _) (nm & Hnm & _)].
  rewrite (reducer_untracked _ _ _ (Hno Subscription) (Hno Query) (Hno Mutation)).
  now rewrite Hnq, Hnm, !num_strict_ne_refl.
Qed.

Lemma no_operation_definition_no_change_witness :
  let actions := [event REQUEST Query "GetUser"; failure Query "GetUser" "timeout"] in
  let fragments :=
    NetworkStatusAction.mk REQUEST
      (Payload.mk
         (Operation.mk (DocumentNode.mk [DefinitionNode.mk "FragmentDefinition" None])
                       "UserFields" None)
         None None) in
  let reached := dispatchAll initialState actions initialNext in
  fst (reducer (fst reached) fragments (snd reached)) = fst reached.
Proof.
  intros actions fragments reached.
  apply (no_operation_definition_no_change actions fragments).
  intros definition [<- | []]. discriminate.
Defined.
